(** * DynamicDifficultyScaler: a shallow embedding and its properties

    The development embeds [src/DynamicDifficultyScaler.py] method by
    method and proves the properties its specification states.

    Numbers.  Python [int] and [float] values are identified by their
    numeric value and modelled as exact rationals [Q]; IEEE rounding,
    infinities and NaN are outside the model, so a value that the
    doubles put within a rounding error of a tie of [round] can be
    rounded the other way here.  The float power [x ** y] with a
    non-integer exponent has no rational counterpart: it is a parameter
    [fpow] of the development, everything else is executable.

    Effects.  Every method runs in a small state-and-exception monad over
    the instance attributes: a call maps the attributes before the call to
    the attributes after it, together with the returned value or the
    raised exception.  The file system read and written by
    [load_state]/[save_state] is passed explicitly.

    The notice that [load_state] prints for a missing file is not
    modelled. *)

From Stdlib Require Import QArith Qround Qminmax Qpower Lqa ZArith Lia Bool.
From stdpp Require Import gmap strings.

Local Open Scope Q_scope.

(** ** Python primitives *)

Module Py.

(** Exceptions the embedded code can raise. *)
Inductive error : Type :=
  | ZeroDivisionError
  | JSONDecodeError
  | OSError.

Inductive outcome (A : Type) : Type :=
  | Ok (a : A)
  | Raise (e : error).
Arguments Ok {A} a.
Arguments Raise {A} e.

(** [max(a, b)]: keeps the first argument unless the second is strictly
    greater. *)
Definition max (a b : Q) : Q := if Qlt_le_dec a b then b else a.

(** [min(a, b)]: keeps the first argument unless the second is strictly
    smaller. *)
Definition min (a b : Q) : Q := if Qlt_le_dec b a then b else a.

(** [max(a, b, c)] scans from the left. *)
Definition max3 (a b c : Q) : Q := max (max a b) c.

(** [a > b] and [a < b] as tests. *)
Definition gt (a b : Q) : bool := if Qlt_le_dec b a then true else false.
Definition lt (a b : Q) : bool := if Qlt_le_dec a b then true else false.
Definition ge (a b : Q) : bool := if Qlt_le_dec a b then false else true.
Definition le (a b : Q) : bool := if Qlt_le_dec b a then false else true.

(** [round(x)] with one argument: nearest integer, ties to the even one. *)
Definition round (x : Q) : Z :=
  let f := Qfloor x in
  match Qcompare (x - inject_Z f) (1 # 2) with
  | Lt => f
  | Gt => (f + 1)%Z
  | Eq => if Z.even f then f else (f + 1)%Z
  end.

(** [int(x)]: truncation toward zero. *)
Definition int (x : Q) : Z := Z.quot (Qnum x) (Zpos (Qden x)).

(** The literal [1e-9]. *)
Definition eps : Q := 1 # 1000000000.

(** [round(x, ndigits)]: nearest multiple of [10 ** -ndigits], ties to
    the even one. *)
Definition round_to (x : Q) (ndigits : Z) : Q :=
  inject_Z (round (x * 10 ^ ndigits)) / 10 ^ ndigits.

End Py.

(** A stand-in for [**] that is exact on integer exponents, used to run
    the model on concrete inputs. *)
Definition fpow_integral (b e : Q) : Q := Qpower b (Qfloor e).

(** ** Instance attributes *)

Record DynamicDifficultyScaler : Type := mkScaler {
  target_points : Q;
  initial_milestone_value : Q;
  visible_total_time : Q;
  target_win_time : Q;
  adjustment_rate : Q;
  min_milestone_value : Q;
  max_milestone_value : Q;
  earned_points : Q;
  milestone_value : Q;
  visible_time_remaining : Q;
  normal_time_reward : Q;
  low_time_reward : Q;
  high_time_threshold : Q;
  low_time_threshold : Q;
  high_time_cap : Q;
  start_visible_total_time : Q;
  awarded_time_ledger : Q;
  (* created by [set_visible_time] only, absent until then *)
  visible_elapsed : option Q
}.

Abbreviation Scaler := DynamicDifficultyScaler (only parsing).

(** Attribute assignment [self.x = v]. *)
Definition with_earned_points (s : Scaler) (v : Q) : Scaler :=
  mkScaler (target_points s) (initial_milestone_value s) (visible_total_time s)
    (target_win_time s) (adjustment_rate s) (min_milestone_value s)
    (max_milestone_value s) v (milestone_value s)
    (visible_time_remaining s) (normal_time_reward s) (low_time_reward s)
    (high_time_threshold s) (low_time_threshold s) (high_time_cap s)
    (start_visible_total_time s) (awarded_time_ledger s) (visible_elapsed s).

Definition with_milestone_value (s : Scaler) (v : Q) : Scaler :=
  mkScaler (target_points s) (initial_milestone_value s) (visible_total_time s)
    (target_win_time s) (adjustment_rate s) (min_milestone_value s)
    (max_milestone_value s) (earned_points s) v
    (visible_time_remaining s) (normal_time_reward s) (low_time_reward s)
    (high_time_threshold s) (low_time_threshold s) (high_time_cap s)
    (start_visible_total_time s) (awarded_time_ledger s) (visible_elapsed s).

Definition with_visible_time_remaining (s : Scaler) (v : Q) : Scaler :=
  mkScaler (target_points s) (initial_milestone_value s) (visible_total_time s)
    (target_win_time s) (adjustment_rate s) (min_milestone_value s)
    (max_milestone_value s) (earned_points s) (milestone_value s)
    v (normal_time_reward s) (low_time_reward s)
    (high_time_threshold s) (low_time_threshold s) (high_time_cap s)
    (start_visible_total_time s) (awarded_time_ledger s) (visible_elapsed s).

Definition with_visible_total_time (s : Scaler) (v : Q) : Scaler :=
  mkScaler (target_points s) (initial_milestone_value s) v
    (target_win_time s) (adjustment_rate s) (min_milestone_value s)
    (max_milestone_value s) (earned_points s) (milestone_value s)
    (visible_time_remaining s) (normal_time_reward s) (low_time_reward s)
    (high_time_threshold s) (low_time_threshold s) (high_time_cap s)
    (start_visible_total_time s) (awarded_time_ledger s) (visible_elapsed s).

Definition with_awarded_time_ledger (s : Scaler) (v : Q) : Scaler :=
  mkScaler (target_points s) (initial_milestone_value s) (visible_total_time s)
    (target_win_time s) (adjustment_rate s) (min_milestone_value s)
    (max_milestone_value s) (earned_points s) (milestone_value s)
    (visible_time_remaining s) (normal_time_reward s) (low_time_reward s)
    (high_time_threshold s) (low_time_threshold s) (high_time_cap s)
    (start_visible_total_time s) v (visible_elapsed s).

Definition with_visible_elapsed (s : Scaler) (v : Q) : Scaler :=
  mkScaler (target_points s) (initial_milestone_value s) (visible_total_time s)
    (target_win_time s) (adjustment_rate s) (min_milestone_value s)
    (max_milestone_value s) (earned_points s) (milestone_value s)
    (visible_time_remaining s) (normal_time_reward s) (low_time_reward s)
    (high_time_threshold s) (low_time_threshold s) (high_time_cap s)
    (start_visible_total_time s) (awarded_time_ledger s) (Some v).

Definition with_target_points (s : Scaler) (v : Q) : Scaler :=
  mkScaler v (initial_milestone_value s) (visible_total_time s)
    (target_win_time s) (adjustment_rate s) (min_milestone_value s)
    (max_milestone_value s) (earned_points s) (milestone_value s)
    (visible_time_remaining s) (normal_time_reward s) (low_time_reward s)
    (high_time_threshold s) (low_time_threshold s) (high_time_cap s)
    (start_visible_total_time s) (awarded_time_ledger s) (visible_elapsed s).

Definition with_initial_milestone_value (s : Scaler) (v : Q) : Scaler :=
  mkScaler (target_points s) v (visible_total_time s) (target_win_time s)
    (adjustment_rate s) (min_milestone_value s) (max_milestone_value s)
    (earned_points s) (milestone_value s) (visible_time_remaining s)
    (normal_time_reward s) (low_time_reward s) (high_time_threshold s)
    (low_time_threshold s) (high_time_cap s) (start_visible_total_time s)
    (awarded_time_ledger s) (visible_elapsed s).

Definition with_target_win_time (s : Scaler) (v : Q) : Scaler :=
  mkScaler (target_points s) (initial_milestone_value s)
    (visible_total_time s) v (adjustment_rate s) (min_milestone_value s)
    (max_milestone_value s) (earned_points s) (milestone_value s)
    (visible_time_remaining s) (normal_time_reward s) (low_time_reward s)
    (high_time_threshold s) (low_time_threshold s) (high_time_cap s)
    (start_visible_total_time s) (awarded_time_ledger s) (visible_elapsed s).

Definition with_adjustment_rate (s : Scaler) (v : Q) : Scaler :=
  mkScaler (target_points s) (initial_milestone_value s)
    (visible_total_time s) (target_win_time s) v (min_milestone_value s)
    (max_milestone_value s) (earned_points s) (milestone_value s)
    (visible_time_remaining s) (normal_time_reward s) (low_time_reward s)
    (high_time_threshold s) (low_time_threshold s) (high_time_cap s)
    (start_visible_total_time s) (awarded_time_ledger s) (visible_elapsed s).

Definition with_min_milestone_value (s : Scaler) (v : Q) : Scaler :=
  mkScaler (target_points s) (initial_milestone_value s)
    (visible_total_time s) (target_win_time s) (adjustment_rate s) v
    (max_milestone_value s) (earned_points s) (milestone_value s)
    (visible_time_remaining s) (normal_time_reward s) (low_time_reward s)
    (high_time_threshold s) (low_time_threshold s) (high_time_cap s)
    (start_visible_total_time s) (awarded_time_ledger s) (visible_elapsed s).

Definition with_max_milestone_value (s : Scaler) (v : Q) : Scaler :=
  mkScaler (target_points s) (initial_milestone_value s)
    (visible_total_time s) (target_win_time s) (adjustment_rate s)
    (min_milestone_value s) v (earned_points s) (milestone_value s)
    (visible_time_remaining s) (normal_time_reward s) (low_time_reward s)
    (high_time_threshold s) (low_time_threshold s) (high_time_cap s)
    (start_visible_total_time s) (awarded_time_ledger s) (visible_elapsed s).

Definition with_normal_time_reward (s : Scaler) (v : Q) : Scaler :=
  mkScaler (target_points s) (initial_milestone_value s)
    (visible_total_time s) (target_win_time s) (adjustment_rate s)
    (min_milestone_value s) (max_milestone_value s) (earned_points s)
    (milestone_value s) (visible_time_remaining s) v (low_time_reward s)
    (high_time_threshold s) (low_time_threshold s) (high_time_cap s)
    (start_visible_total_time s) (awarded_time_ledger s) (visible_elapsed s).

Definition with_low_time_reward (s : Scaler) (v : Q) : Scaler :=
  mkScaler (target_points s) (initial_milestone_value s)
    (visible_total_time s) (target_win_time s) (adjustment_rate s)
    (min_milestone_value s) (max_milestone_value s) (earned_points s)
    (milestone_value s) (visible_time_remaining s) (normal_time_reward s) v
    (high_time_threshold s) (low_time_threshold s) (high_time_cap s)
    (start_visible_total_time s) (awarded_time_ledger s) (visible_elapsed s).

Definition with_high_time_threshold (s : Scaler) (v : Q) : Scaler :=
  mkScaler (target_points s) (initial_milestone_value s)
    (visible_total_time s) (target_win_time s) (adjustment_rate s)
    (min_milestone_value s) (max_milestone_value s) (earned_points s)
    (milestone_value s) (visible_time_remaining s) (normal_time_reward s)
    (low_time_reward s) v (low_time_threshold s) (high_time_cap s)
    (start_visible_total_time s) (awarded_time_ledger s) (visible_elapsed s).

Definition with_low_time_threshold (s : Scaler) (v : Q) : Scaler :=
  mkScaler (target_points s) (initial_milestone_value s)
    (visible_total_time s) (target_win_time s) (adjustment_rate s)
    (min_milestone_value s) (max_milestone_value s) (earned_points s)
    (milestone_value s) (visible_time_remaining s) (normal_time_reward s)
    (low_time_reward s) (high_time_threshold s) v (high_time_cap s)
    (start_visible_total_time s) (awarded_time_ledger s) (visible_elapsed s).

Definition with_high_time_cap (s : Scaler) (v : Q) : Scaler :=
  mkScaler (target_points s) (initial_milestone_value s)
    (visible_total_time s) (target_win_time s) (adjustment_rate s)
    (min_milestone_value s) (max_milestone_value s) (earned_points s)
    (milestone_value s) (visible_time_remaining s) (normal_time_reward s)
    (low_time_reward s) (high_time_threshold s) (low_time_threshold s) v
    (start_visible_total_time s) (awarded_time_ledger s) (visible_elapsed s).

Definition with_start_visible_total_time (s : Scaler) (v : Q) : Scaler :=
  mkScaler (target_points s) (initial_milestone_value s)
    (visible_total_time s) (target_win_time s) (adjustment_rate s)
    (min_milestone_value s) (max_milestone_value s) (earned_points s)
    (milestone_value s) (visible_time_remaining s) (normal_time_reward s)
    (low_time_reward s) (high_time_threshold s) (low_time_threshold s)
    (high_time_cap s) v (awarded_time_ledger s) (visible_elapsed s).

(** ** The method monad *)

Definition M (A : Type) : Type := Scaler -> Scaler * Py.outcome A.

Definition ret {A} (a : A) : M A := fun s => (s, Py.Ok a).

Definition bind {A B} (m : M A) (k : A -> M B) : M B :=
  fun s =>
    match m s with
    | (s', Py.Ok a) => k a s'
    | (s', Py.Raise e) => (s', Py.Raise e)
    end.

Definition raise {A} (e : Py.error) : M A := fun s => (s, Py.Raise e).

(** [self.x] *)
Definition read {A} (f : Scaler -> A) : M A := fun s => (s, Py.Ok (f s)).

(** [self.x = v] *)
Definition assign (upd : Scaler -> Q -> Scaler) (v : Q) : M unit :=
  fun s => (upd s v, Py.Ok tt).

Notation "x <- m ;; k" := (bind m (fun x => k))
  (at level 100, m at next level, right associativity).
Notation "m ;;; k" := (bind m (fun _ => k))
  (at level 100, right associativity).

(** [a / b] on floats raises on a zero divisor. *)
Definition div (a b : Q) : M Q :=
  if Qeq_bool b 0 then raise Py.ZeroDivisionError else ret (a / b).

(** The attributes after a call, and what the call produced. *)
Definition state_after {A} (m : M A) (s : Scaler) : Scaler := fst (m s).
Definition result_of {A} (m : M A) (s : Scaler) : Py.outcome A := snd (m s).

(** ** Construction *)

(** [__init__] *)
Definition __init__
    (target_points initial_milestone_value visible_total_time
     target_win_time adjustment_rate min_milestone_value
     max_milestone_value : Q) : Scaler :=
  {| target_points := target_points;
     initial_milestone_value := initial_milestone_value;
     visible_total_time := visible_total_time;
     target_win_time := target_win_time;
     adjustment_rate := adjustment_rate;
     min_milestone_value := min_milestone_value;
     max_milestone_value := max_milestone_value;
     earned_points := 0;
     milestone_value := initial_milestone_value;
     visible_time_remaining := visible_total_time;
     normal_time_reward := 1;
     low_time_reward := 20;
     high_time_threshold := 50;
     low_time_threshold := 30;
     high_time_cap := 5;
     start_visible_total_time := visible_total_time;
     awarded_time_ledger := 0;
     visible_elapsed := None |}.

(** [DynamicDifficultyScaler()] with every default argument. *)
Definition default_instance : Scaler :=
  __init__ 100 10 100 400 (1 # 4) 1 20.

(** ** Engine integration setters *)

Definition set_progress (points : Q) : M unit :=
  assign with_earned_points points.

Definition set_visible_time_remaining (visible_time_remaining : Q) : M unit :=
  assign with_visible_time_remaining (Py.max 0 visible_time_remaining).

Definition set_visible_total_time (visible_total_time : Q) : M unit :=
  assign with_visible_total_time (Py.max 0 visible_total_time).

Definition _effective_total : M Q :=
  vtr <- read visible_time_remaining ;;
  vtt <- read visible_total_time ;;
  baseline <- read start_visible_total_time ;;
  ledger <- read awarded_time_ledger ;;
  ret (Py.max3 (baseline + ledger) vtt vtr).

Definition set_visible_time (remaining total : Q) : M unit :=
  set_visible_total_time total ;;;
  set_visible_time_remaining remaining ;;;
  eff_total <- _effective_total ;;
  assign with_visible_elapsed (Py.max 0 (eff_total - remaining)).

Definition add_visible_time (delta_minutes : Q) (record_to_ledger : bool)
  : M unit :=
  let dm := delta_minutes in
  vtr <- read visible_time_remaining ;;
  assign with_visible_time_remaining (Py.max 0 (vtr + dm)) ;;;
  vtt <- read visible_total_time ;;
  vtr' <- read visible_time_remaining ;;
  assign with_visible_total_time (Py.max vtt vtr') ;;;
  if record_to_ledger then
    ledger <- read awarded_time_ledger ;;
    assign with_awarded_time_ledger (ledger + dm)
  else ret tt.

(** ** Time reward calculation *)

Definition calculate_time_reward : M Q :=
  vtr0 <- read visible_time_remaining ;;
  let vtr := Py.max 0 vtr0 in
  eff <- _effective_total ;;
  let eff_total := Py.max Py.eps eff in
  r <- div vtr eff_total ;;
  let t := Py.max 0 (Py.min r 1) in
  base <- read normal_time_reward ;;
  max_late <- read low_time_reward ;;
  if Py.lt vtr 20 then ret max_late
  else
    high_thr <- read high_time_threshold ;;
    low_thr <- read low_time_threshold ;;
    high_cap <- read high_time_cap ;;
    cap <- (if Py.ge vtr high_thr then ret high_cap
            else if Py.le vtr low_thr then ret max_late
            else
              let span := Py.max Py.eps (high_thr - low_thr) in
              frac <- div (high_thr - vtr) span ;;
              ret (high_cap + (max_late - high_cap) * frac)) ;;
    let reward := base + (max_late - base) * (1 - t) ^ 2 in
    let reward := Py.max base (Py.min reward cap) in
    ret reward.

(** ** Milestone logic *)

Definition complete_milestone : M Q :=
  earned <- read earned_points ;;
  mv <- read milestone_value ;;
  assign with_earned_points (earned + mv) ;;;
  time_bonus <- calculate_time_reward ;;
  ret time_bonus.

(** ** State I/O *)

Definition get_progress : M Q := read earned_points.

(** The telemetry dict; its one integer entry, ["Flag Val"], is stored by
    its numeric value. *)
Definition get_game_state : M (gmap string Q) :=
  eff_total <- _effective_total ;;
  vtr <- read visible_time_remaining ;;
  let visible_elapsed := Py.max 0 (eff_total - vtr) in
  reward <- calculate_time_reward ;;
  twt <- read target_win_time ;;
  let elapsed_for_target := Py.min visible_elapsed twt in
  share <- div elapsed_for_target twt ;;
  tp <- read target_points ;;
  let expected_points := share * tp in
  pace_ratio <- (if Py.gt expected_points 0
                 then earned <- read earned_points ;; div earned expected_points
                 else ret 1) ;;
  earned <- read earned_points ;;
  mv <- read milestone_value ;;
  vtt <- read visible_total_time ;;
  ret (list_to_map
         [ ("Pts Won", Py.round_to earned 2);
           ("Pts Rem", Py.max 0 (Py.round_to (tp - earned) 2));
           ("Reward", Py.round_to reward 2);
           ("Flag Val", inject_Z (Py.int mv));
           ("Clock", Py.round_to vtr 2);
           ("TT", Py.round_to vtt 2);
           ("ET", Py.round_to eff_total 2);
           ("Time Elapsed", Py.round_to visible_elapsed 2);
           ("TWT", Py.round_to twt 2);
           ("PR", Py.round_to pace_ratio 3) ]).

(** What a file holds: a flat JSON object of numbers, or text that
    [json.load] rejects. *)
Inductive content : Type :=
  | Malformed
  | Snapshot (state : gmap string Q).

(** The files that exist, and the paths [open(path, "w")] refuses. *)
Record filesystem : Type := mkFs {
  files : gmap string content;
  denied : gset string
}.

(** The dict literal of [save_state], keys in source order. *)
Definition snapshot_of (s : Scaler) : gmap string Q :=
  list_to_map
    [ ("target_points", target_points s);
      ("initial_milestone_value", initial_milestone_value s);
      ("milestone_value", milestone_value s);
      ("earned_points", earned_points s);
      ("visible_total_time", visible_total_time s);
      ("visible_time_remaining", visible_time_remaining s);
      ("target_win_time", target_win_time s);
      ("normal_time_reward", normal_time_reward s);
      ("low_time_reward", low_time_reward s);
      ("high_time_threshold", high_time_threshold s);
      ("low_time_threshold", low_time_threshold s);
      ("high_time_cap", high_time_cap s);
      ("start_visible_total_time", start_visible_total_time s);
      ("awarded_time_ledger", awarded_time_ledger s);
      ("adjustment_rate", adjustment_rate s);
      ("min_milestone_value", min_milestone_value s);
      ("max_milestone_value", max_milestone_value s) ].

Definition save_state (filepath : string) (fs : filesystem) : M filesystem :=
  state <- read snapshot_of ;;
  if decide (filepath ∈ denied fs) then raise Py.OSError
  else ret (mkFs (<[filepath := Snapshot state]> (files fs)) (denied fs)).

(** [float(state.get(key, self.x))] followed by [self.x = ...]. *)
Definition restore (state : gmap string Q) (key : string)
    (attr : Scaler -> Q) (upd : Scaler -> Q -> Scaler) : M unit :=
  current <- read attr ;;
  assign upd (default current (state !! key)).

Definition load_state (filepath : string) (fs : filesystem) : M bool :=
  match files fs !! filepath with
  | None => ret false
  | Some Malformed => raise Py.JSONDecodeError
  | Some (Snapshot state) =>
      restore state "target_points" target_points with_target_points ;;;
      restore state "initial_milestone_value" initial_milestone_value
        with_initial_milestone_value ;;;
      restore state "milestone_value" milestone_value with_milestone_value ;;;
      restore state "earned_points" earned_points with_earned_points ;;;
      restore state "visible_total_time" visible_total_time
        with_visible_total_time ;;;
      restore state "visible_time_remaining" visible_time_remaining
        with_visible_time_remaining ;;;
      restore state "target_win_time" target_win_time with_target_win_time ;;;
      restore state "normal_time_reward" normal_time_reward
        with_normal_time_reward ;;;
      restore state "low_time_reward" low_time_reward with_low_time_reward ;;;
      restore state "high_time_threshold" high_time_threshold
        with_high_time_threshold ;;;
      restore state "low_time_threshold" low_time_threshold
        with_low_time_threshold ;;;
      restore state "high_time_cap" high_time_cap with_high_time_cap ;;;
      restore state "start_visible_total_time" start_visible_total_time
        with_start_visible_total_time ;;;
      restore state "awarded_time_ledger" awarded_time_ledger
        with_awarded_time_ledger ;;;
      restore state "adjustment_rate" adjustment_rate with_adjustment_rate ;;;
      restore state "min_milestone_value" min_milestone_value
        with_min_milestone_value ;;;
      restore state "max_milestone_value" max_milestone_value
        with_max_milestone_value ;;;
      ret true
  end.

Section Power.

(** The float power [x ** y]. *)
Variable fpow : Q -> Q -> Q.

Definition update_milestone_value : M Z :=
  vtr <- read visible_time_remaining ;;
  eff_total <- _effective_total ;;
  let visible_elapsed := Py.max 0 (eff_total - vtr) in
  twt <- read target_win_time ;;
  let elapsed_for_target := Py.min visible_elapsed twt in
  share <- div elapsed_for_target twt ;;
  tp <- read target_points ;;
  let expected_points := share * tp in
  pace_ratio <- (if Py.gt expected_points 0
                 then earned <- read earned_points ;; div earned expected_points
                 else ret 1) ;;
  r <- div vtr eff_total ;;
  let t := Py.max 0 (Py.min r 1) in
  rate <- read adjustment_rate ;;
  let reduction_strength := rate * (1 + t ^ 2) in
  increase_strength <- div rate (1 + t ^ 2) ;;
  (if Py.gt pace_ratio 1 then
     inv <- div 1 pace_ratio ;;
     mv <- read milestone_value ;;
     assign with_milestone_value (mv * fpow inv reduction_strength)
   else if Py.lt pace_ratio 1 then
     mv <- read milestone_value ;;
     assign with_milestone_value
       (mv * (1 + increase_strength * (1 - pace_ratio)))
   else ret tt) ;;;
  lo <- read min_milestone_value ;;
  mv <- read milestone_value ;;
  hi <- read max_milestone_value ;;
  assign with_milestone_value (Py.max lo (Py.min mv hi)) ;;;
  mv <- read milestone_value ;;
  assign with_milestone_value (inject_Z (Py.round mv)) ;;;
  mv <- read milestone_value ;;
  ret (Py.int mv).

(** ** Sequences of calls *)

Inductive op : Type :=
  | SetProgress (points : Q)
  | SetVisibleTimeRemaining (visible_time_remaining : Q)
  | SetVisibleTotalTime (visible_total_time : Q)
  | SetVisibleTime (remaining total : Q)
  | AddVisibleTime (delta_minutes : Q) (record_to_ledger : bool)
  | CalculateTimeReward
  | CompleteMilestone
  | UpdateMilestoneValue.

(** One call, its return value dropped. *)
Definition call (o : op) : M unit :=
  match o with
  | SetProgress p => set_progress p
  | SetVisibleTimeRemaining v => set_visible_time_remaining v
  | SetVisibleTotalTime v => set_visible_total_time v
  | SetVisibleTime r t => set_visible_time r t
  | AddVisibleTime d b => add_visible_time d b
  | CalculateTimeReward => _ <- calculate_time_reward ;; ret tt
  | CompleteMilestone => _ <- complete_milestone ;; ret tt
  | UpdateMilestoneValue => _ <- update_milestone_value ;; ret tt
  end.

(** The attributes an engine can bring an instance to: whatever a call
    leaves behind, whether it returned or raised. *)
Inductive reachable (s0 : Scaler) : Scaler -> Prop :=
  | reach_start : reachable s0 s0
  | reach_call s o : reachable s0 s -> reachable s0 (state_after (call o) s).

Definition is_set_progress (o : op) : bool :=
  match o with SetProgress _ => true | _ => false end.

End Power.

(** ** Reference definitions, in the words of the specification

    These follow the specification's formulas over the rationals with the
    mathematical [Qmax]/[Qmin]; the theorems below compare them with what
    the methods above compute. *)

Module Ref.

(** clamp(x, lo, hi) *)
Definition clamp (x lo hi : Q) : Q := Qmax lo (Qmin x hi).

(** a < b, decided *)
Definition less (a b : Q) : bool := negb (Qle_bool b a).

(** max(startVisibleTotalTime + awardedTimeLedger, visibleTotalTime,
    visibleTimeRemaining) *)
Definition effective_total (s : Scaler) : Q :=
  Qmax (Qmax (start_visible_total_time s + awarded_time_ledger s)
             (visible_total_time s))
       (visible_time_remaining s).

(** The dynamic cap of section 4.2; [span] is the divisor of the
    interpolation. *)
Definition cap (span : Q) (s : Scaler) (vtr : Q) : Q :=
  if Qle_bool (high_time_threshold s) vtr then high_time_cap s
  else if Qle_bool vtr (low_time_threshold s) then low_time_reward s
  else high_time_cap s
       + (low_time_reward s - high_time_cap s)
         * ((high_time_threshold s - vtr) / span).

(** The time reward of section 4.2 for a given interpolation divisor. *)
Definition time_reward_with (span : Q) (s : Scaler) : Q :=
  let vtr := Qmax 0 (visible_time_remaining s) in
  let effTotal := Qmax Py.eps (effective_total s) in
  let t := clamp (vtr / effTotal) 0 1 in
  if less vtr 20 then low_time_reward s
  else
    clamp (normal_time_reward s
           + (low_time_reward s - normal_time_reward s) * (1 - t) ^ 2)
          (normal_time_reward s) (cap span s vtr).

(** As the specification writes it: the divisor is
    highTimeThreshold - lowTimeThreshold. *)
Definition time_reward (s : Scaler) : Q :=
  time_reward_with (high_time_threshold s - low_time_threshold s) s.

(** With the divisor floored at [1e-9]. *)
Definition time_reward_floored (s : Scaler) : Q :=
  time_reward_with
    (Qmax Py.eps (high_time_threshold s - low_time_threshold s)) s.

(** Section 4.3. *)
Definition visible_elapsed (s : Scaler) : Q :=
  Qmax 0 (effective_total s - visible_time_remaining s).

Definition expected_score (s : Scaler) : Q :=
  (Qmin (visible_elapsed s) (target_win_time s) / target_win_time s)
  * target_points s.

Definition pace_ratio (s : Scaler) : Q :=
  if less 0 (expected_score s) then earned_points s / expected_score s
  else 1.

Definition time_fraction (s : Scaler) : Q :=
  clamp (visible_time_remaining s / effective_total s) 0 1.

Section Power.

Variable fpow : Q -> Q -> Q.

(** What milestoneValue is multiplied by. *)
Definition milestone_factor (s : Scaler) : Q :=
  let p := pace_ratio s in
  let t := time_fraction s in
  if less 1 p then fpow (1 / p) (adjustment_rate s * (1 + t ^ 2))
  else if less p 1 then 1 + (adjustment_rate s / (1 + t ^ 2)) * (1 - p)
  else 1.

(** The adjusted, clamped and rounded milestone value. *)
Definition updated_milestone_value (s : Scaler) : Z :=
  Py.round (clamp (milestone_value s * milestone_factor s)
                  (min_milestone_value s) (max_milestone_value s)).

End Power.

End Ref.

(** ** Frames *)

(** Every attribute but [earned_points] is the same in [s'] as in [s]. *)
Definition unchanged_but_earned_points (s s' : Scaler) : Prop :=
  target_points s' = target_points s
  /\ initial_milestone_value s' = initial_milestone_value s
  /\ visible_total_time s' = visible_total_time s
  /\ target_win_time s' = target_win_time s
  /\ adjustment_rate s' = adjustment_rate s
  /\ min_milestone_value s' = min_milestone_value s
  /\ max_milestone_value s' = max_milestone_value s
  /\ milestone_value s' = milestone_value s
  /\ visible_time_remaining s' = visible_time_remaining s
  /\ normal_time_reward s' = normal_time_reward s
  /\ low_time_reward s' = low_time_reward s
  /\ high_time_threshold s' = high_time_threshold s
  /\ low_time_threshold s' = low_time_threshold s
  /\ high_time_cap s' = high_time_cap s
  /\ start_visible_total_time s' = start_visible_total_time s
  /\ awarded_time_ledger s' = awarded_time_ledger s
  /\ visible_elapsed s' = visible_elapsed s.

(** The 17 attributes [save_state] writes are the same in [s'] as in [s]. *)
Definition persisted_fields_agree (s s' : Scaler) : Prop :=
  target_points s' = target_points s
  /\ initial_milestone_value s' = initial_milestone_value s
  /\ visible_total_time s' = visible_total_time s
  /\ target_win_time s' = target_win_time s
  /\ adjustment_rate s' = adjustment_rate s
  /\ min_milestone_value s' = min_milestone_value s
  /\ max_milestone_value s' = max_milestone_value s
  /\ earned_points s' = earned_points s
  /\ milestone_value s' = milestone_value s
  /\ visible_time_remaining s' = visible_time_remaining s
  /\ normal_time_reward s' = normal_time_reward s
  /\ low_time_reward s' = low_time_reward s
  /\ high_time_threshold s' = high_time_threshold s
  /\ low_time_threshold s' = low_time_threshold s
  /\ high_time_cap s' = high_time_cap s
  /\ start_visible_total_time s' = start_visible_total_time s
  /\ awarded_time_ledger s' = awarded_time_ledger s.

(** ** Sample instances *)

(** A partial snapshot whose thresholds are closer together than
    [1e-9], with the remaining time between them. *)
Definition narrow_thresholds_save : filesystem :=
  mkFs {[ "game_state.json" :=
          Snapshot (<[ "high_time_threshold" := 300000000001 # 10000000000 ]>
                    {[ "visible_time_remaining" :=
                         600000000001 # 20000000000 ]}) ]}
       ∅.

(** The default instance after loading it. *)
Definition narrow_thresholds : Scaler :=
  state_after (load_state "game_state.json" narrow_thresholds_save)
    default_instance.

(** A partial snapshot whose floor reward exceeds the late-game reward. *)
Definition inverted_rewards_save : filesystem :=
  mkFs {[ "game_state.json" := Snapshot {[ "normal_time_reward" := 100 ]} ]}
       ∅.

(** The default instance after loading it. *)
Definition inverted_rewards : Scaler :=
  state_after (load_state "game_state.json" inverted_rewards_save)
    default_instance.

(** [DynamicDifficultyScaler(initial_milestone_value=2.4,
    min_milestone_value=2.4)] *)
Definition fractional_bound : Scaler :=
  __init__ 100 (12 # 5) 100 400 (1 # 4) (12 # 5) 20.

(** Half of the clock gone, twice the expected score, and an adjustment
    rate that makes the exponent of the reduction an integer. *)
Definition ahead_of_pace : Scaler :=
  with_earned_points
    (with_visible_time_remaining (__init__ 100 10 100 400 (4 # 5) 1 20) 50) 25.

(** The default instance after the engine revoked more time than was
    left and then reported a total of zero. *)
Definition revoked_clock : Scaler :=
  state_after (call fpow_integral (SetVisibleTotalTime 0))
    (state_after (call fpow_integral (AddVisibleTime (-150) true))
       default_instance).

(** [DynamicDifficultyScaler(visible_total_time=-10)] *)
Definition negative_total : Scaler :=
  __init__ 100 10 (-10) 400 (1 # 4) 1 20.

(** That instance after set_progress(5), set_visible_total_time(50),
    complete_milestone() and update_milestone_value(). *)
Definition negative_total_later : Scaler :=
  state_after (call fpow_integral UpdateMilestoneValue)
    (state_after (call fpow_integral CompleteMilestone)
       (state_after (call fpow_integral (SetVisibleTotalTime 50))
          (state_after (call fpow_integral (SetProgress 5))
             negative_total))).

(** No file exists and every path may be written. *)
Definition empty_fs : filesystem := mkFs ∅ ∅.

(** ** Statements about inputs and snapshots *)

(** The attributes [calculate_time_reward] reads are the same in [s'] as
    in [s]. *)
Definition same_reward_inputs (s s' : Scaler) : Prop :=
  visible_time_remaining s' = visible_time_remaining s
  /\ visible_total_time s' = visible_total_time s
  /\ start_visible_total_time s' = start_visible_total_time s
  /\ awarded_time_ledger s' = awarded_time_ledger s
  /\ normal_time_reward s' = normal_time_reward s
  /\ low_time_reward s' = low_time_reward s
  /\ high_time_threshold s' = high_time_threshold s
  /\ low_time_threshold s' = low_time_threshold s
  /\ high_time_cap s' = high_time_cap s.

(** The keys [save_state] writes and [load_state] reads. *)
Definition persisted_keys : list string :=
  [ "target_points";
    "initial_milestone_value";
    "milestone_value";
    "earned_points";
    "visible_total_time";
    "visible_time_remaining";
    "target_win_time";
    "normal_time_reward";
    "low_time_reward";
    "high_time_threshold";
    "low_time_threshold";
    "high_time_cap";
    "start_visible_total_time";
    "awarded_time_ledger";
    "adjustment_rate";
    "min_milestone_value";
    "max_milestone_value" ].

(** [s'] is [s] with every attribute whose key is in [state] replaced by
    the value stored there. *)
Definition merged_from (state : gmap string Q) (s s' : Scaler) : Prop :=
  target_points s' = default (target_points s) (state !! "target_points")
  /\ initial_milestone_value s'
     = default (initial_milestone_value s) (state !! "initial_milestone_value")
  /\ milestone_value s'
     = default (milestone_value s) (state !! "milestone_value")
  /\ earned_points s' = default (earned_points s) (state !! "earned_points")
  /\ visible_total_time s'
     = default (visible_total_time s) (state !! "visible_total_time")
  /\ visible_time_remaining s'
     = default (visible_time_remaining s) (state !! "visible_time_remaining")
  /\ target_win_time s'
     = default (target_win_time s) (state !! "target_win_time")
  /\ normal_time_reward s'
     = default (normal_time_reward s) (state !! "normal_time_reward")
  /\ low_time_reward s'
     = default (low_time_reward s) (state !! "low_time_reward")
  /\ high_time_threshold s'
     = default (high_time_threshold s) (state !! "high_time_threshold")
  /\ low_time_threshold s'
     = default (low_time_threshold s) (state !! "low_time_threshold")
  /\ high_time_cap s' = default (high_time_cap s) (state !! "high_time_cap")
  /\ start_visible_total_time s'
     = default (start_visible_total_time s) (state !! "start_visible_total_time")
  /\ awarded_time_ledger s'
     = default (awarded_time_ledger s) (state !! "awarded_time_ledger")
  /\ adjustment_rate s'
     = default (adjustment_rate s) (state !! "adjustment_rate")
  /\ min_milestone_value s'
     = default (min_milestone_value s) (state !! "min_milestone_value")
  /\ max_milestone_value s'
     = default (max_milestone_value s) (state !! "max_milestone_value")
  /\ visible_elapsed s' = visible_elapsed s.

(** The keys of the dict [get_game_state] returns. *)
Definition game_state_keys : list string :=
  [ "Pts Won"; "Pts Rem"; "Reward"; "Flag Val"; "Clock"; "TT"; "ET";
    "Time Elapsed"; "TWT"; "PR" ].

(** Half of the clock gone and less than half of the expected score. *)
Definition behind_pace : Scaler :=
  with_earned_points (with_visible_time_remaining default_instance 50) 5.

(** ** Properties of the primitives *)

Lemma max_Qmax (a b : Q) : Py.max a b == Qmax a b.
Proof.
  unfold Py.max. destruct (Qlt_le_dec a b) as [H|H].
  - symmetry. apply Q.max_r. lra.
  - symmetry. apply Q.max_l. exact H.
Qed.

Lemma min_Qmin (a b : Q) : Py.min a b == Qmin a b.
Proof.
  unfold Py.min. destruct (Qlt_le_dec b a) as [H|H].
  - symmetry. apply Q.min_r. lra.
  - symmetry. apply Q.min_l. exact H.
Qed.

Lemma max3_Qmax (a b c : Q) : Py.max3 a b c == Qmax (Qmax a b) c.
Proof. unfold Py.max3. now rewrite !max_Qmax. Qed.

#[global] Instance round_comp : Proper (Qeq ==> eq) Py.round.
Proof.
  intros x y Hxy. unfold Py.round.
  rewrite (Qfloor_comp _ _ Hxy).
  assert (E : Qcompare (x - inject_Z (Qfloor y)) (1 # 2)
              = Qcompare (y - inject_Z (Qfloor y)) (1 # 2)).
  { apply Qcompare_comp; [now rewrite Hxy | reflexivity]. }
  now rewrite E.
Qed.

Example round_ties_to_even :
  Py.round (5 # 2) = 2%Z /\ Py.round (7 # 2) = 4%Z
  /\ Py.round (-5 # 2) = (-2)%Z /\ Py.round (12 # 5) = 2%Z.
Proof. repeat split. Qed.

Example int_truncates : Py.int (-7 # 2) = (-3)%Z /\ Py.int (7 # 2) = 3%Z.
Proof. split; reflexivity. Qed.

Lemma int_inject_Z (z : Z) : Py.int (inject_Z z) = z.
Proof. unfold Py.int, inject_Z. simpl. apply Z.quot_1_r. Qed.

Lemma round_floor_or_succ (x : Q) :
  Py.round x = Qfloor x \/
  (Py.round x = (Qfloor x + 1)%Z /\ inject_Z (Qfloor x) < x).
Proof.
  unfold Py.round.
  destruct (Qcompare (x - inject_Z (Qfloor x)) (1 # 2)) eqn:E.
  - apply Qeq_alt in E. destruct (Z.even (Qfloor x)); [now left|].
    right. split; [reflexivity | lra].
  - now left.
  - apply Qgt_alt in E. right. split; [reflexivity | lra].
Qed.

Lemma round_between (a b : Z) (x : Q) :
  inject_Z a <= x -> x <= inject_Z b -> (a <= Py.round x <= b)%Z.
Proof.
  intros Ha Hb.
  assert (Hfa : (a <= Qfloor x)%Z).
  { rewrite <- (Qfloor_Z a). now apply Qfloor_resp_le. }
  assert (Hfb : (Qfloor x <= b)%Z).
  { rewrite <- (Qfloor_Z b). now apply Qfloor_resp_le. }
  destruct (round_floor_or_succ x) as [-> | [-> Hlt]]; [lia|].
  split; [lia|].
  assert (Hs : inject_Z (Qfloor x) < inject_Z b) by lra.
  rewrite <- Zlt_Qlt in Hs. lia.
Qed.

Lemma max_eps_pos (x : Q) : 0 < Py.max Py.eps x.
Proof.
  unfold Py.max, Py.eps. destruct (Qlt_le_dec _ x); lra.
Qed.

Lemma lt_Qle_bool (a b : Q) : Py.lt a b = negb (Qle_bool b a).
Proof.
  unfold Py.lt. destruct (Qlt_le_dec a b) as [H|H].
  - destruct (Qle_bool b a) eqn:E; [|reflexivity].
    apply Qle_bool_iff in E. lra.
  - apply Qle_bool_iff in H. now rewrite H.
Qed.

Lemma gt_Qle_bool (a b : Q) : Py.gt a b = negb (Qle_bool a b).
Proof. apply (lt_Qle_bool b a). Qed.

Lemma ge_Qle_bool (a b : Q) : Py.ge a b = Qle_bool b a.
Proof.
  unfold Py.ge. pose proof (lt_Qle_bool a b) as H. unfold Py.lt in H.
  destruct (Qlt_le_dec a b); destruct (Qle_bool b a); simpl in H; congruence.
Qed.

Lemma le_Qle_bool (a b : Q) : Py.le a b = Qle_bool a b.
Proof. apply (ge_Qle_bool b a). Qed.

#[global] Instance max_comp : Proper (Qeq ==> Qeq ==> Qeq) Py.max.
Proof. intros a a' Ha b b' Hb. rewrite !max_Qmax. now apply Q.max_compat. Qed.

#[global] Instance min_comp : Proper (Qeq ==> Qeq ==> Qeq) Py.min.
Proof. intros a a' Ha b b' Hb. rewrite !min_Qmin. now apply Q.min_compat. Qed.

Lemma max_ge_l (a b : Q) : a <= Py.max a b.
Proof. unfold Py.max. destruct (Qlt_le_dec a b); lra. Qed.

Lemma max_ge_r (a b : Q) : b <= Py.max a b.
Proof. unfold Py.max. destruct (Qlt_le_dec a b); lra. Qed.

Lemma gt_true (a b : Q) : Py.gt a b = true -> b < a.
Proof. unfold Py.gt. destruct (Qlt_le_dec b a); [auto | discriminate]. Qed.

Lemma square_fraction_pos (t : Q) : 0 < 1 + t ^ 2.
Proof. simpl. nra. Qed.

Lemma min_le_r (a b : Q) : Py.min a b <= b.
Proof. unfold Py.min. destruct (Qlt_le_dec b a); lra. Qed.

Lemma clamp_code_bounds (lo m hi : Q) :
  lo <= Py.max lo (Py.min m hi)
  /\ (lo <= hi -> Py.max lo (Py.min m hi) <= hi).
Proof.
  split; [apply max_ge_l|]. intros H.
  pose proof (min_le_r m hi). unfold Py.max.
  destruct (Qlt_le_dec lo (Py.min m hi)); lra.
Qed.

#[global] Instance clamp_comp :
  Proper (Qeq ==> Qeq ==> Qeq ==> Qeq) Ref.clamp.
Proof.
  intros x x' Hx lo lo' Hlo hi hi' Hhi. unfold Ref.clamp.
  now rewrite Hx, Hlo, Hhi.
Qed.

(** ** Running the methods *)

Lemma bind_ok {A B} (m : M A) (k : A -> M B) (s s' : Scaler) (a : A) :
  m s = (s', Py.Ok a) -> bind m k s = k a s'.
Proof. intros H. unfold bind. now rewrite H. Qed.

Lemma div_ok (a b : Q) (s : Scaler) :
  ~ b == 0 -> div a b s = (s, Py.Ok (a / b)).
Proof.
  intros H. unfold div. destruct (Qeq_bool b 0) eqn:E; [|reflexivity].
  apply Qeq_bool_iff in E. contradiction.
Qed.

Lemma div_zero (a b : Q) (s : Scaler) :
  b == 0 -> div a b s = (s, Py.Raise Py.ZeroDivisionError).
Proof.
  intros H. unfold div. apply Qeq_bool_iff in H. now rewrite H.
Qed.

Lemma effective_total_run (s : Scaler) :
  _effective_total s
  = (s, Py.Ok (Py.max3 (start_visible_total_time s + awarded_time_ledger s)
                       (visible_total_time s) (visible_time_remaining s))).
Proof. reflexivity. Qed.

Lemma effective_total_ref (s : Scaler) :
  Py.max3 (start_visible_total_time s + awarded_time_ledger s)
          (visible_total_time s) (visible_time_remaining s)
  == Ref.effective_total s.
Proof. apply max3_Qmax. Qed.

Lemma calculate_time_reward_run (s : Scaler) :
  exists r, calculate_time_reward s = (s, Py.Ok r)
            /\ r == Ref.time_reward_floored s.
Proof.
  unfold calculate_time_reward.
  unfold bind at 1. unfold read at 1.
  unfold bind at 1. rewrite effective_total_run.
  unfold bind at 1. rewrite div_ok.
  2:{ pose proof (max_eps_pos
                    (Py.max3 (start_visible_total_time s + awarded_time_ledger s)
                             (visible_total_time s) (visible_time_remaining s))).
      lra. }
  cbn [bind read ret].
  unfold Ref.time_reward_floored, Ref.time_reward_with, Ref.cap, Ref.clamp,
    Ref.less.
  pose proof (max_Qmax 0 (visible_time_remaining s)) as Hv.
  set (v := Py.max 0 (visible_time_remaining s)) in *.
  assert (Cr : forall a, Qle_bool a (Qmax 0 (visible_time_remaining s))
                         = Qle_bool a v) by (intros; now rewrite Hv).
  assert (Cl : forall a, Qle_bool (Qmax 0 (visible_time_remaining s)) a
                         = Qle_bool v a) by (intros; now rewrite Hv).
  rewrite !Cr, !Cl, lt_Qle_bool.
  destruct (Qle_bool 20 v) eqn:E20; cbn [negb].
  2:{ eexists; split; reflexivity. }
  cbn [bind read ret]. rewrite ge_Qle_bool.
  destruct (Qle_bool (high_time_threshold s) v) eqn:Eh.
  { eexists; split; [reflexivity|].
    now rewrite effective_total_ref, <- Hv, !max_Qmax, !min_Qmin. }
  rewrite le_Qle_bool.
  destruct (Qle_bool v (low_time_threshold s)) eqn:El.
  { eexists; split; [reflexivity|].
    now rewrite effective_total_ref, <- Hv, !max_Qmax, !min_Qmin. }
  unfold bind. rewrite div_ok.
  2:{ pose proof (max_eps_pos (high_time_threshold s - low_time_threshold s)).
      lra. }
  cbn [ret].
  eexists; split; [reflexivity|].
  now rewrite effective_total_ref, <- Hv, !max_Qmax, !min_Qmin.
Qed.

Lemma complete_milestone_run (s : Scaler) :
  let s' := with_earned_points s (earned_points s + milestone_value s) in
  exists r, complete_milestone s = (s', Py.Ok r)
            /\ calculate_time_reward s' = (s', Py.Ok r)
            /\ r == Ref.time_reward_floored s'.
Proof.
  intros s'. unfold complete_milestone. cbn [bind read assign].
  fold s'. destruct (calculate_time_reward_run s') as (r & E & Hr).
  exists r. unfold bind at 1. rewrite E. cbn [ret]. auto.
Qed.

(** Unless the thresholds are closer than [1e-9], flooring the divisor
    changes nothing. *)
Lemma time_reward_floored_wide_span (s : Scaler) :
  Py.eps <= high_time_threshold s - low_time_threshold s ->
  Ref.time_reward_floored s == Ref.time_reward s.
Proof.
  intros H. unfold Ref.time_reward_floored, Ref.time_reward.
  assert (E : Qmax Py.eps (high_time_threshold s - low_time_threshold s)
              == high_time_threshold s - low_time_threshold s)
    by now apply Q.max_r.
  unfold Ref.time_reward_with, Ref.cap.
  destruct (Ref.less _ 20); [reflexivity|].
  destruct (Qle_bool (high_time_threshold s) _); [reflexivity|].
  destruct (Qle_bool _ (low_time_threshold s)); [reflexivity|].
  now rewrite E.
Qed.

(** C2, as amended. calculate_time_reward changes no attribute and
    returns the reward of section 4.2 in which the interpolation divides
    by max(1e-9, highTimeThreshold - lowTimeThreshold): lowTimeReward when
    vtr < 20, otherwise the quadratic curve clamped between
    normalTimeReward and the cap; under the default thresholds 30 and 50
    the cap at vtr = 40 is 12.5. *)
Theorem calculate_time_reward_formula (s : Scaler) :
  (exists r, calculate_time_reward s = (s, Py.Ok r)
             /\ r == Ref.time_reward_floored s)
  /\ Ref.cap (Qmax Py.eps (high_time_threshold default_instance
                           - low_time_threshold default_instance))
             default_instance 40 == 25 # 2.
Proof.
  split; [apply calculate_time_reward_run | reflexivity].
Qed.

(** C6. complete_milestone adds the current milestone value to
    earned_points, returns what calculate_time_reward yields in the
    resulting state, and changes nothing else; on the default instance
    the score becomes 10 and the returned bonus is 1. *)
Theorem complete_milestone_effect (s : Scaler) :
  (exists s' r,
     complete_milestone s = (s', Py.Ok r)
     /\ earned_points s' = earned_points s + milestone_value s
     /\ calculate_time_reward s' = (s', Py.Ok r)
     /\ unchanged_but_earned_points s s')
  /\ (exists s1 r1,
        complete_milestone default_instance = (s1, Py.Ok r1)
        /\ earned_points s1 == 10 /\ r1 == 1).
Proof.
  split.
  - destruct (complete_milestone_run s) as (r & E & Er & _).
    eexists _, r. split; [exact E|].
    split; [reflexivity|]. split; [exact Er|].
    unfold unchanged_but_earned_points. cbn. tauto.
  - eexists _, _. split; [reflexivity|]. split; reflexivity.
Qed.

(** C10. set_progress stores its argument as it is, whatever its sign
    and whatever the current score, and changes no other attribute. *)
Theorem set_progress_stores_exactly (s : Scaler) (p : Q) :
  exists s',
    set_progress p s = (s', Py.Ok tt)
    /\ earned_points s' = p
    /\ unchanged_but_earned_points s s'.
Proof.
  eexists. split; [reflexivity|]. split; [reflexivity|].
  unfold unchanged_but_earned_points. cbn. tauto.
Qed.

(** ** The milestone value adjuster *)

Section Adjuster.

Variable fpow : Q -> Q -> Q.

Lemma update_milestone_value_state (s : Scaler) :
  state_after (update_milestone_value fpow) s = s
  \/ exists v, state_after (update_milestone_value fpow) s
               = with_milestone_value s v.
Proof.
  unfold state_after, update_milestone_value.
  unfold _effective_total, bind, div, read, ret, raise, assign.
  cbv beta iota.
  repeat (match goal with
          | |- context [if ?c then _ else _] => destruct c
          end; cbv beta iota);
    cbn; eauto.
Qed.

Lemma call_remaining_nonneg (o : op) (s : Scaler) :
  0 <= visible_time_remaining s ->
  0 <= visible_time_remaining (state_after (call fpow o) s).
Proof.
  intros H. destruct o; cbn [call].
  - exact H.
  - apply max_ge_l.
  - exact H.
  - apply max_ge_l.
  - destruct record_to_ledger; apply max_ge_l.
  - unfold state_after, bind.
    destruct (calculate_time_reward_run s) as (r & -> & _). exact H.
  - unfold state_after, bind.
    destruct (complete_milestone_run s) as (r & -> & _). exact H.
  - pose proof (update_milestone_value_state s) as Hs.
    unfold state_after, bind in *.
    destruct (update_milestone_value fpow s) as [s' [z|e]]; cbn in *;
      destruct Hs as [-> | [v ->]]; exact H.
Qed.

(** C1, as amended. From any constructed instance, whatever sequence
    of calls the engine makes (the two clock setters, the combined
    setter, add_visible_time with a delta of either sign and with or
    without ledger recording, the score setter, the reward calculator,
    complete_milestone, update_milestone_value), the effective total,
    which is max(start + ledger, total, remaining), is never below the
    remaining time; and the remaining time is non-negative provided the
    instance was constructed with a non-negative total time. *)
Theorem elapsed_never_negative
    (tp imv vtt twt rate lo hi : Q) (s : Scaler) :
  reachable fpow (__init__ tp imv vtt twt rate lo hi) s ->
  (exists eff,
     _effective_total s = (s, Py.Ok eff)
     /\ eff == Ref.effective_total s
     /\ 0 <= eff - visible_time_remaining s)
  /\ (0 <= vtt -> 0 <= visible_time_remaining s).
Proof.
  intros Hreach. split.
  - eexists. split; [apply effective_total_run|].
    split; [apply effective_total_ref|].
    unfold Py.max3.
    pose proof (max_ge_r
      (Py.max (start_visible_total_time s + awarded_time_ledger s)
              (visible_total_time s))
      (visible_time_remaining s)).
    lra.
  - intros Hvtt. induction Hreach as [|s o _ IH].
    + exact Hvtt.
    + now apply call_remaining_nonneg.
Qed.

Lemma update_milestone_value_steps (s : Scaler) :
  ~ target_win_time s == 0 ->
  ~ Ref.effective_total s == 0 ->
  exists p t : Q,
    p == Ref.pace_ratio s /\ t == Ref.time_fraction s /\
    let m := if Py.gt p 1
             then milestone_value s
                  * fpow (1 / p) (adjustment_rate s * (1 + t ^ 2))
             else if Py.lt p 1
             then milestone_value s
                  * (1 + adjustment_rate s / (1 + t ^ 2) * (1 - p))
             else milestone_value s in
    let x := Py.max (min_milestone_value s)
                    (Py.min m (max_milestone_value s)) in
    update_milestone_value fpow s
    = (with_milestone_value s (inject_Z (Py.round x)), Py.Ok (Py.round x)).
Proof.
  intros Htwt Heff.
  pose proof (effective_total_ref s) as He.
  set (eff := Py.max3 _ _ _) in He.
  set (e := Py.min (Py.max 0 (eff - visible_time_remaining s))
                   (target_win_time s)
            / target_win_time s * target_points s).
  assert (Hexp : e == Ref.expected_score s).
  { unfold e, Ref.expected_score, Ref.visible_elapsed.
    now rewrite min_Qmin, max_Qmax, He. }
  exists (if Py.gt e 0 then earned_points s / e else 1).
  exists (Py.max 0 (Py.min (visible_time_remaining s / eff) 1)).
  split; [|split].
  - unfold Ref.pace_ratio, Ref.less. rewrite gt_Qle_bool.
    assert (Qle_bool (Ref.expected_score s) 0 = Qle_bool e 0) as ->
      by now rewrite Hexp.
    destruct (Qle_bool e 0); cbn [negb]; [reflexivity | now rewrite Hexp].
  - unfold Ref.time_fraction, Ref.clamp. now rewrite max_Qmax, min_Qmin, He.
  - cbv zeta. unfold update_milestone_value.
    cbn [bind read ret assign _effective_total]. fold eff.
    rewrite (bind_ok _ _ _ _ _ (div_ok _ _ _ Htwt)).
    cbn [bind read ret assign]. fold e.
    assert (Hp : (if Py.gt e 0
                  then earned <- read earned_points ;; div earned e
                  else ret 1) s
                 = (s, Py.Ok (if Py.gt e 0 then earned_points s / e else 1))).
    { destruct (Py.gt e 0) eqn:Eg; [|reflexivity].
      apply gt_true in Eg. cbn [bind read]. apply div_ok. lra. }
    rewrite (bind_ok _ _ _ _ _ Hp). clear Hp.
    set (p := if Py.gt e 0 then earned_points s / e else 1).
    assert (Heff' : ~ eff == 0) by now rewrite He.
    rewrite (bind_ok _ _ _ _ _ (div_ok _ _ _ Heff')).
    cbn [bind read ret assign].
    set (t := Py.max 0 (Py.min (visible_time_remaining s / eff) 1)).
    assert (Ht : ~ 1 + t ^ 2 == 0)
      by (pose proof (square_fraction_pos t); lra).
    rewrite (bind_ok _ _ _ _ _ (div_ok _ _ _ Ht)).
    destruct (Py.gt p 1) eqn:Egt.
    + assert (Hp1 : ~ p == 0) by (apply gt_true in Egt; lra).
      unfold bind at 1. unfold bind at 1.
      rewrite (div_ok _ _ _ Hp1). cbn [bind read ret assign].
      cbn. now rewrite int_inject_Z.
    + destruct (Py.lt p 1); cbn; now rewrite int_inject_Z.
Qed.

(** C4, as amended. When the call returns (the target win time and the
    effective total are non-zero) and the two bounds are integers with
    min <= max, update_milestone_value stores and returns the same
    integer, and that integer lies in [min_milestone_value,
    max_milestone_value]. *)
Theorem milestone_value_within_integer_bounds (s : Scaler) (a b : Z) :
  ~ target_win_time s == 0 ->
  ~ Ref.effective_total s == 0 ->
  min_milestone_value s == inject_Z a ->
  max_milestone_value s == inject_Z b ->
  (a <= b)%Z ->
  exists s' z,
    update_milestone_value fpow s = (s', Py.Ok z)
    /\ milestone_value s' = inject_Z z
    /\ min_milestone_value s' <= inject_Z z
    /\ inject_Z z <= max_milestone_value s'.
Proof.
  intros Htwt Heff Ha Hb Hab.
  destruct (update_milestone_value_steps s Htwt Heff) as (p & t & _ & _ & E).
  cbv zeta in E. rewrite E. clear E.
  match goal with |- context [Py.round ?x0] => set (x := x0) end.
  exists (with_milestone_value s (inject_Z (Py.round x))), (Py.round x).
  split; [reflexivity|]. split; [reflexivity|]. cbn.
  assert (Hle : inject_Z a <= inject_Z b) by now rewrite <- Zle_Qle.
  destruct (clamp_code_bounds (min_milestone_value s)
              (if Py.gt p 1
               then milestone_value s
                    * fpow (1 / p) (adjustment_rate s * (1 + t ^ 2))
               else if Py.lt p 1
               then milestone_value s
                    * (1 + adjustment_rate s / (1 + t ^ 2) * (1 - p))
               else milestone_value s)
              (max_milestone_value s)) as [Hlo Hhi].
  fold x in Hlo, Hhi.
  assert (Hx : (a <= Py.round x <= b)%Z).
  { apply round_between; [lra|]. rewrite <- Hb. apply Hhi. lra. }
  rewrite Ha, Hb, <- !Zle_Qle. lia.
Qed.


Lemma call_earned_points (o : op) (s : Scaler) :
  is_set_progress o = false ->
  earned_points (state_after (call fpow o) s) = earned_points s
  \/ earned_points (state_after (call fpow o) s)
     = earned_points s + milestone_value s.
Proof.
  intros Ho. destruct o; try discriminate; cbn [call].
  - now left.
  - now left.
  - now left.
  - left. now destruct record_to_ledger.
  - left. unfold state_after, bind.
    now destruct (calculate_time_reward_run s) as (r & -> & _).
  - right. unfold state_after, bind.
    now destruct (complete_milestone_run s) as (r & -> & _).
  - left. pose proof (update_milestone_value_state s) as Hs.
    unfold state_after, bind in *.
    destruct (update_milestone_value fpow s) as [s' [z|e]]; cbn in *;
      now destruct Hs as [-> | [v ->]].
Qed.

(** C9, as amended. Every call other than load_state and the score
    setter set_progress, made while the milestone value is non-negative,
    leaves earned_points at least as large as before; so a non-negative
    score stays non-negative. *)
Theorem earned_points_non_decreasing (o : op) (s : Scaler) :
  is_set_progress o = false ->
  0 <= milestone_value s ->
  earned_points s <= earned_points (state_after (call fpow o) s)
  /\ (0 <= earned_points s ->
      0 <= earned_points (state_after (call fpow o) s)).
Proof.
  intros Ho Hmv.
  destruct (call_earned_points o s Ho) as [-> | ->]; split; intros; lra.
Qed.

Hypothesis fpow_comp : Proper (Qeq ==> Qeq ==> Qeq) fpow.

(** In exact arithmetic, whenever its divisions are defined (the target
    win time and the effective total are non-zero),
    update_milestone_value stores and
    returns the value the specification describes: milestone_value times
    the pace-dependent factor ((1/paceRatio)^(rate*(1+t^2)) when ahead,
    1 + rate/(1+t^2)*(1-paceRatio) when behind, 1 when on pace), clamped
    to the bounds and rounded; no other attribute changes. *)
Theorem update_milestone_value_formula (s : Scaler) :
  ~ target_win_time s == 0 ->
  ~ Ref.effective_total s == 0 ->
  update_milestone_value fpow s
  = (with_milestone_value s
       (inject_Z (Ref.updated_milestone_value fpow s)),
     Py.Ok (Ref.updated_milestone_value fpow s)).
Proof.
  intros Htwt Heff.
  destruct (update_milestone_value_steps s Htwt Heff)
    as (p & t & Hp & Ht & E).
  cbv zeta in E. rewrite E. clear E.
  match goal with |- context [Py.round ?x0] => set (x := x0) end.
  assert (Hx : Py.round x = Ref.updated_milestone_value fpow s);
    [|now rewrite Hx].
  unfold Ref.updated_milestone_value. apply round_comp.
  unfold x, Ref.clamp. rewrite max_Qmax, min_Qmin.
  apply Q.max_compat; [reflexivity|].
  apply Q.min_compat; [|reflexivity].
  unfold Ref.milestone_factor, Ref.less. cbv zeta.
  rewrite gt_Qle_bool, lt_Qle_bool.
  assert (Qle_bool (Ref.pace_ratio s) 1 = Qle_bool p 1) as ->
    by now rewrite Hp.
  assert (Qle_bool 1 (Ref.pace_ratio s) = Qle_bool 1 p) as ->
    by now rewrite Hp.
  destruct (Qle_bool p 1); cbn [negb].
  - destruct (Qle_bool 1 p); cbn [negb].
    + ring.
    + now rewrite Hp, Ht.
  - now rewrite Hp, Ht.
Qed.

End Adjuster.

(** ** Persistence *)

(** Reading back each key of the dict that [save_state] writes. *)
Lemma snapshot_of_lookup (s : Scaler) :
  snapshot_of s !! "target_points"%string = Some (target_points s)
  /\ snapshot_of s !! "initial_milestone_value"%string
     = Some (initial_milestone_value s)
  /\ snapshot_of s !! "milestone_value"%string = Some (milestone_value s)
  /\ snapshot_of s !! "earned_points"%string = Some (earned_points s)
  /\ snapshot_of s !! "visible_total_time"%string
     = Some (visible_total_time s)
  /\ snapshot_of s !! "visible_time_remaining"%string
     = Some (visible_time_remaining s)
  /\ snapshot_of s !! "target_win_time"%string = Some (target_win_time s)
  /\ snapshot_of s !! "normal_time_reward"%string
     = Some (normal_time_reward s)
  /\ snapshot_of s !! "low_time_reward"%string = Some (low_time_reward s)
  /\ snapshot_of s !! "high_time_threshold"%string
     = Some (high_time_threshold s)
  /\ snapshot_of s !! "low_time_threshold"%string
     = Some (low_time_threshold s)
  /\ snapshot_of s !! "high_time_cap"%string = Some (high_time_cap s)
  /\ snapshot_of s !! "start_visible_total_time"%string
     = Some (start_visible_total_time s)
  /\ snapshot_of s !! "awarded_time_ledger"%string
     = Some (awarded_time_ledger s)
  /\ snapshot_of s !! "adjustment_rate"%string = Some (adjustment_rate s)
  /\ snapshot_of s !! "min_milestone_value"%string
     = Some (min_milestone_value s)
  /\ snapshot_of s !! "max_milestone_value"%string
     = Some (max_milestone_value s).
Proof. repeat split; vm_compute; reflexivity. Qed.

Lemma restore_found (state : gmap string Q) (key : string)
    (attr : Scaler -> Q) (upd : Scaler -> Q -> Scaler) (v : Q) (t : Scaler) :
  state !! key = Some v ->
  restore state key attr upd t = (upd t v, Py.Ok tt).
Proof. intros H. unfold restore. cbn [bind read assign]. now rewrite H. Qed.

Lemma restore_missing (state : gmap string Q) (key : string)
    (attr : Scaler -> Q) (upd : Scaler -> Q -> Scaler) (t : Scaler) :
  state !! key = None ->
  restore state key attr upd t = (upd t (attr t), Py.Ok tt).
Proof. intros H. unfold restore. cbn [bind read assign]. now rewrite H. Qed.

(** Loading a snapshot written by [save_state]. *)
Lemma load_state_saved (s t : Scaler) (filepath : string) (fs : filesystem) :
  files fs !! filepath = Some (Snapshot (snapshot_of s)) ->
  exists t', load_state filepath fs t = (t', Py.Ok true)
             /\ persisted_fields_agree s t'.
Proof.
  intros Hf. unfold load_state. rewrite Hf.
  pose proof (snapshot_of_lookup s) as L.
  repeat match type of L with
         | _ /\ _ => let H := fresh "L" in destruct L as [H L]
         end.
  repeat (erewrite bind_ok; [|apply restore_found; eassumption]).
  eexists. split; [reflexivity|].
  unfold persisted_fields_agree. cbn. tauto.
Qed.

(** C8. load_state on a path that does not exist returns False, raises
    nothing and leaves every attribute as it was. *)
Theorem load_state_missing_file (s : Scaler) (filepath : string)
    (fs : filesystem) :
  files fs !! filepath = None ->
  load_state filepath fs s = (s, Py.Ok false).
Proof.
  intros H. unfold load_state. now rewrite H.
Qed.

(** C7. Saving an instance to a writable path and loading that path into
    a freshly constructed instance, whatever its constructor arguments,
    returns True and makes each of the 17 saved attributes of the fresh
    instance equal to that of the saved one. *)
Theorem save_then_load_round_trip (s : Scaler) (filepath : string)
    (fs : filesystem) (tp imv vtt twt rate lo hi : Q) :
  filepath ∉ denied fs ->
  exists fs' s',
    save_state filepath fs s = (s, Py.Ok fs')
    /\ load_state filepath fs' (__init__ tp imv vtt twt rate lo hi)
       = (s', Py.Ok true)
    /\ persisted_fields_agree s s'.
Proof.
  intros Hw. unfold save_state. cbn [bind read].
  destruct (decide (filepath ∈ denied fs)) as [Hin | _]; [contradiction|].
  set (fs' := mkFs _ _).
  destruct (load_state_saved s (__init__ tp imv vtt twt rate lo hi)
              filepath fs') as (s' & El & Hs).
  { apply lookup_insert_eq. }
  exists fs', s'. split; [reflexivity|]. split; assumption.
Qed.

(** ** Monotonicity of the reward *)

Lemma div_le_compat (a b c : Q) : 0 < c -> a <= b -> a / c <= b / c.
Proof.
  intros Hc Hab. apply Qle_shift_div_l; [exact Hc|].
  assert (E : a / c * c == a) by (field; lra). lra.
Qed.

Lemma clamp_unit (x : Q) : 0 <= Ref.clamp x 0 1 /\ Ref.clamp x 0 1 <= 1.
Proof.
  unfold Ref.clamp. split; [apply Q.le_max_l|].
  apply Q.max_lub; [lra | apply Q.le_min_r].
Qed.

Lemma clamp_monotone (x y lo hi : Q) :
  x <= y -> Ref.clamp x lo hi <= Ref.clamp y lo hi.
Proof.
  intros H. unfold Ref.clamp.
  apply Q.max_le_compat_l. now apply Q.min_le_compat_r.
Qed.

Lemma clamp_cap_monotone (x y lo c d : Q) :
  x <= y -> c <= d -> Ref.clamp x lo c <= Ref.clamp y lo d.
Proof.
  intros Hxy Hcd. unfold Ref.clamp.
  apply Q.max_le_compat_l. now apply Q.min_le_compat.
Qed.

(** The fraction of time remaining grows with the remaining time, also
    when the remaining time itself decides the effective total. *)
Lemma time_fraction_monotone (m v1 v2 : Q) :
  v2 <= v1 ->
  Ref.clamp (Qmax 0 v2 / Qmax Py.eps (Qmax m v2)) 0 1
  <= Ref.clamp (Qmax 0 v1 / Qmax Py.eps (Qmax m v1)) 0 1.
Proof.
  intros Hv.
  assert (Hm : 0 < Qmax Py.eps m).
  { apply Q.max_lt_iff. left. reflexivity. }
  assert (E : forall v, Qmax Py.eps (Qmax m v) == Qmax (Qmax Py.eps m) v)
    by (intros; apply Q.max_assoc).
  rewrite !E. set (m' := Qmax Py.eps m) in *.
  destruct (Qlt_le_dec m' v1) as [Hgt | Hle].
  - assert (E1 : Qmax m' v1 == v1) by (apply Q.max_r; lra).
    assert (E0 : Qmax 0 v1 == v1) by (apply Q.max_r; lra).
    rewrite E1, E0.
    assert (Eone : v1 / v1 == 1) by (field; lra).
    rewrite Eone.
    assert (Ec : Ref.clamp 1 0 1 == 1).
    { unfold Ref.clamp. rewrite Q.min_id. apply Q.max_r. lra. }
    rewrite Ec. apply clamp_unit.
  - assert (E1 : Qmax m' v1 == m') by (apply Q.max_l; lra).
    assert (E2 : Qmax m' v2 == m') by (apply Q.max_l; lra).
    rewrite E1, E2. apply clamp_monotone.
    apply div_le_compat; [exact Hm|]. now apply Q.max_le_compat_l.
Qed.

Lemma curve_antitone (base late t1 t2 : Q) :
  base <= late -> 0 <= t2 -> t2 <= t1 -> t1 <= 1 ->
  base + (late - base) * (1 - t1) ^ 2 <= base + (late - base) * (1 - t2) ^ 2
  /\ base + (late - base) * (1 - t2) ^ 2 <= late.
Proof.
  intros Hb H0 H12 H1. simpl.
  assert (0 <= (1 - t1) * (1 - t1)) by nra.
  assert ((1 - t1) * (1 - t1) <= (1 - t2) * (1 - t2)) by nra.
  assert ((1 - t2) * (1 - t2) <= 1) by nra.
  split; nra.
Qed.

Lemma frac_bounds (high low span w : Q) :
  0 < span -> high - low <= span -> low < w -> w < high ->
  0 <= (high - w) / span /\ (high - w) / span <= 1.
Proof.
  intros Hs Hsp Hl Hh. split.
  - apply Qle_shift_div_l; [exact Hs | lra].
  - apply Qle_shift_div_r; [exact Hs | lra].
Qed.

Lemma Qle_bool_false (a b : Q) : Qle_bool a b = false -> b < a.
Proof.
  intros H. destruct (Qlt_le_dec b a) as [|Hle]; [assumption|].
  apply Qle_bool_iff in Hle. congruence.
Qed.

Section Cap.

Variables (s : Scaler) (span : Q).
Hypothesis span_pos : 0 < span.
Hypothesis span_covers : high_time_threshold s - low_time_threshold s <= span.

Lemma cap_between (w : Q) :
  (high_time_cap s <= low_time_reward s ->
   high_time_cap s <= Ref.cap span s w /\ Ref.cap span s w <= low_time_reward s)
  /\ (low_time_reward s <= high_time_cap s ->
      low_time_reward s <= Ref.cap span s w).
Proof.
  unfold Ref.cap.
  destruct (Qle_bool (high_time_threshold s) w) eqn:Eh.
  { split; intros; [split|]; lra. }
  destruct (Qle_bool w (low_time_threshold s)) eqn:El.
  { split; intros; [split|]; lra. }
  apply Qle_bool_false in Eh, El.
  destruct (frac_bounds _ _ _ _ span_pos span_covers El Eh) as [F0 F1].
  set (f := (high_time_threshold s - w) / span) in *.
  split; intros; [split|]; nra.
Qed.

Lemma cap_antitone (w1 w2 : Q) :
  high_time_cap s <= low_time_reward s ->
  w2 <= w1 ->
  Ref.cap span s w1 <= Ref.cap span s w2.
Proof.
  intros Hc Hw.
  destruct (cap_between w1) as [[A1 B1] _]; [exact Hc|].
  destruct (cap_between w2) as [[A2 B2] _]; [exact Hc|].
  unfold Ref.cap in *.
  destruct (Qle_bool (high_time_threshold s) w1) eqn:Eh1; [exact A2|].
  apply Qle_bool_false in Eh1.
  destruct (Qle_bool (high_time_threshold s) w2) eqn:Eh2.
  { apply Qle_bool_iff in Eh2. lra. }
  destruct (Qle_bool w2 (low_time_threshold s)) eqn:El2; [exact B1|].
  apply Qle_bool_false in El2.
  destruct (Qle_bool w1 (low_time_threshold s)) eqn:El1.
  { apply Qle_bool_iff in El1. lra. }
  assert (F : (high_time_threshold s - w1) / span
              <= (high_time_threshold s - w2) / span)
    by (apply div_le_compat; [exact span_pos | lra]).
  nra.
Qed.

End Cap.

Lemma time_reward_floored_antitone (s : Scaler) (v1 v2 : Q) :
  normal_time_reward s <= low_time_reward s ->
  v2 <= v1 ->
  Ref.time_reward_floored (with_visible_time_remaining s v1)
  <= Ref.time_reward_floored (with_visible_time_remaining s v2).
Proof.
  intros Hb Hv.
  unfold Ref.time_reward_floored, Ref.time_reward_with, Ref.effective_total,
    Ref.less.
  cbn [visible_time_remaining with_visible_time_remaining
       normal_time_reward low_time_reward high_time_threshold
       low_time_threshold start_visible_total_time awarded_time_ledger
       visible_total_time].
  set (m := Qmax (start_visible_total_time s + awarded_time_ledger s)
                 (visible_total_time s)).
  set (span := Qmax Py.eps (high_time_threshold s - low_time_threshold s)).
  pose proof (time_fraction_monotone m v1 v2 Hv) as Ht.
  set (t1 := Ref.clamp (Qmax 0 v1 / Qmax Py.eps (Qmax m v1)) 0 1) in *.
  set (t2 := Ref.clamp (Qmax 0 v2 / Qmax Py.eps (Qmax m v2)) 0 1) in *.
  assert (Ht1 : 0 <= t1 /\ t1 <= 1) by apply clamp_unit.
  assert (Ht2 : 0 <= t2 /\ t2 <= 1) by apply clamp_unit.
  destruct (curve_antitone (normal_time_reward s) (low_time_reward s) t1 t2)
    as [Hc12 Hc2]; [lra..|].
  destruct (curve_antitone (normal_time_reward s) (low_time_reward s) t1 t1)
    as [_ Hc1]; [lra..|].
  set (c1 := normal_time_reward s
             + (low_time_reward s - normal_time_reward s) * (1 - t1) ^ 2) in *.
  set (c2 := normal_time_reward s
             + (low_time_reward s - normal_time_reward s) * (1 - t2) ^ 2) in *.
  assert (Hw : Qmax 0 v2 <= Qmax 0 v1) by now apply Q.max_le_compat_l.
  assert (Hspan : 0 < span) by (apply Q.max_lt_iff; left; reflexivity).
  assert (Hcov : high_time_threshold s - low_time_threshold s <= span)
    by apply Q.le_max_r.
  change (Ref.cap span (with_visible_time_remaining s v1) (Qmax 0 v1))
    with (Ref.cap span s (Qmax 0 v1)).
  change (Ref.cap span (with_visible_time_remaining s v2) (Qmax 0 v2))
    with (Ref.cap span s (Qmax 0 v2)).
  destruct (Qle_bool 20 (Qmax 0 v1)) eqn:E1; cbn [negb].
  - destruct (Qle_bool 20 (Qmax 0 v2)) eqn:E2; cbn [negb].
    + destruct (Qlt_le_dec (low_time_reward s) (high_time_cap s)) as [Hhc|Hhc].
      * (* the cap never binds *)
        destruct (cap_between s span Hspan Hcov (Qmax 0 v1)) as [_ G1].
        destruct (cap_between s span Hspan Hcov (Qmax 0 v2)) as [_ G2].
        unfold Ref.clamp.
        rewrite (Q.min_l c1), (Q.min_l c2) by lra.
        now apply Q.max_le_compat_l.
      * apply clamp_cap_monotone; [exact Hc12|].
        now apply cap_antitone.
    + unfold Ref.clamp. apply Q.max_lub; [exact Hb|].
      apply Qle_trans with c1; [apply Q.le_min_l | exact Hc1].
  - apply Qle_bool_false in E1.
    destruct (Qle_bool 20 (Qmax 0 v2)) eqn:E2; cbn [negb].
    + apply Qle_bool_iff in E2. lra.
    + lra.
Qed.

(** C5, as amended. Whenever normalTimeReward <= lowTimeReward (as with
    the constants every constructed instance has), of two states that
    differ in visible_time_remaining only, the one with less time
    remaining gets at least as large a reward. *)
Theorem time_reward_antitone (s : Scaler) (v1 v2 : Q) :
  normal_time_reward s <= low_time_reward s ->
  v2 <= v1 ->
  exists r1 r2,
    calculate_time_reward (with_visible_time_remaining s v1)
    = (with_visible_time_remaining s v1, Py.Ok r1)
    /\ calculate_time_reward (with_visible_time_remaining s v2)
       = (with_visible_time_remaining s v2, Py.Ok r2)
    /\ r1 <= r2.
Proof.
  intros Hb Hv.
  destruct (calculate_time_reward_run (with_visible_time_remaining s v1))
    as (r1 & E1 & H1).
  destruct (calculate_time_reward_run (with_visible_time_remaining s v2))
    as (r2 & E2 & H2).
  exists r1, r2. split; [exact E1|]. split; [exact E2|].
  rewrite H1, H2. now apply time_reward_floored_antitone.
Qed.

(** ** The theorems at concrete inputs *)

Lemma fpow_integral_comp : Proper (Qeq ==> Qeq ==> Qeq) fpow_integral.
Proof.
  intros b b' Hb e e' He. unfold fpow_integral.
  rewrite (Qfloor_comp _ _ He). now rewrite Hb.
Qed.

(** C1, as amended, after a revocation of 150 minutes and a total
    reading of zero on the default instance. *)
Lemma elapsed_never_negative_witness :
  (exists eff,
     _effective_total revoked_clock = (revoked_clock, Py.Ok eff)
     /\ eff == Ref.effective_total revoked_clock
     /\ 0 <= eff - visible_time_remaining revoked_clock)
  /\ 0 <= visible_time_remaining revoked_clock.
Proof.
  destruct (elapsed_never_negative fpow_integral 100 10 100 400 (1 # 4) 1 20
              revoked_clock) as [Helapsed Hremaining].
  - unfold revoked_clock, default_instance.
    apply reach_call, reach_call, reach_start.
  - split; [exact Helapsed|]. apply Hremaining. unfold Qle. simpl. lia.
Defined.

(** The formula on an instance that is ahead of pace: the value 10 is
    halved. *)
Lemma update_milestone_value_formula_witness :
  update_milestone_value fpow_integral ahead_of_pace
  = (with_milestone_value ahead_of_pace
       (inject_Z (Ref.updated_milestone_value fpow_integral ahead_of_pace)),
     Py.Ok (Ref.updated_milestone_value fpow_integral ahead_of_pace))
  /\ Ref.updated_milestone_value fpow_integral ahead_of_pace = 5%Z.
Proof.
  split; [|vm_compute; reflexivity].
  apply (update_milestone_value_formula fpow_integral fpow_integral_comp).
  - intros H. vm_compute in H. discriminate H.
  - intros H. vm_compute in H. discriminate H.
Defined.

(** C4 on the default instance, whose bounds are 1 and 20. *)
Lemma milestone_value_within_integer_bounds_witness :
  exists s' z,
    update_milestone_value fpow_integral default_instance = (s', Py.Ok z)
    /\ milestone_value s' = inject_Z z
    /\ min_milestone_value s' <= inject_Z z
    /\ inject_Z z <= max_milestone_value s'.
Proof.
  apply (milestone_value_within_integer_bounds fpow_integral
           default_instance 1 20).
  - intros H. vm_compute in H. discriminate H.
  - intros H. vm_compute in H. discriminate H.
  - reflexivity.
  - reflexivity.
  - lia.
Defined.

(** C5 on the default configuration, between 40 and 25 minutes left. *)
Lemma time_reward_antitone_witness :
  exists r1 r2,
    calculate_time_reward (with_visible_time_remaining default_instance 40)
    = (with_visible_time_remaining default_instance 40, Py.Ok r1)
    /\ calculate_time_reward (with_visible_time_remaining default_instance 25)
       = (with_visible_time_remaining default_instance 25, Py.Ok r2)
    /\ r1 <= r2.
Proof.
  apply (time_reward_antitone default_instance 40 25).
  - unfold Qle. simpl. lia.
  - unfold Qle. simpl. lia.
Defined.

(** C7: saving [ahead_of_pace] and loading it into a default instance. *)
Lemma save_then_load_round_trip_witness :
  exists fs' s',
    save_state "game_state.json" empty_fs ahead_of_pace
    = (ahead_of_pace, Py.Ok fs')
    /\ load_state "game_state.json" fs' (__init__ 100 10 100 400 (1 # 4) 1 20)
       = (s', Py.Ok true)
    /\ persisted_fields_agree ahead_of_pace s'.
Proof.
  apply (save_then_load_round_trip ahead_of_pace "game_state.json" empty_fs).
  apply not_elem_of_empty.
Defined.

(** C8: nothing has been saved yet. *)
Lemma load_state_missing_file_witness :
  load_state "game_state.json" empty_fs ahead_of_pace
  = (ahead_of_pace, Py.Ok false).
Proof.
  apply (load_state_missing_file ahead_of_pace "game_state.json" empty_fs).
  reflexivity.
Defined.

(** C9, as amended, for a milestone completed on the default instance. *)
Lemma earned_points_non_decreasing_witness :
  earned_points default_instance
  <= earned_points
       (state_after (call fpow_integral CompleteMilestone) default_instance)
  /\ (0 <= earned_points default_instance ->
      0 <= earned_points
             (state_after (call fpow_integral CompleteMilestone)
                default_instance)).
Proof.
  apply (earned_points_non_decreasing fpow_integral CompleteMilestone
           default_instance).
  - reflexivity.
  - unfold Qle. simpl. lia.
Defined.

(** The scenario of the specification in which the override applies:
    with 15 minutes left the reward is lowTimeReward. *)
Example time_reward_at_15_minutes :
  result_of calculate_time_reward
    (with_visible_time_remaining default_instance 15) = Py.Ok 20.
Proof. reflexivity. Qed.

(** With every clock reading and the ledger balance at zero the adjuster
    raises. *)
Example update_milestone_value_without_time :
  update_milestone_value fpow_integral (__init__ 100 10 0 400 (1 # 4) 1 20)
  = (__init__ 100 10 0 400 (1 # 4) 1 20, Py.Raise Py.ZeroDivisionError).
Proof. reflexivity. Qed.

(** ** Where the specification and the code part *)

(** C1 as stated fails: the constructor stores its total-time argument
    unclamped as the remaining time, and an instance constructed with
    -10 still has -10 minutes remaining after set_progress,
    set_visible_total_time, complete_milestone and
    update_milestone_value. *)
Lemma remaining_time_negative_from_constructor :
  reachable fpow_integral negative_total negative_total_later
  /\ visible_time_remaining negative_total_later == -10
  /\ ~ 0 <= visible_time_remaining negative_total_later.
Proof.
  split.
  - unfold negative_total_later, negative_total.
    apply reach_call, reach_call, reach_call, reach_call, reach_start.
  - split; [reflexivity|].
    intros H. vm_compute in H. apply H. reflexivity.
Qed.

(** C3. After DynamicDifficultyScaler(), add_visible_time(-150) and
    set_visible_total_time(0) the effective total is 0. The formula of
    the claim is on pace there (nothing is expected yet) and yields the
    stored value 10; update_milestone_value divides the remaining time
    by the unfloored effective total and raises ZeroDivisionError, while
    calculate_time_reward, which floors the same divisor at 1e-9,
    returns. *)
Theorem update_milestone_value_raises_at_zero_total :
  reachable fpow_integral default_instance revoked_clock
  /\ (exists eff,
        _effective_total revoked_clock = (revoked_clock, Py.Ok eff)
        /\ eff == 0)
  /\ update_milestone_value fpow_integral revoked_clock
     = (revoked_clock, Py.Raise Py.ZeroDivisionError)
  /\ Ref.pace_ratio revoked_clock == 1
  /\ Ref.updated_milestone_value fpow_integral revoked_clock = 10%Z
  /\ result_of calculate_time_reward revoked_clock = Py.Ok 20.
Proof.
  split.
  { unfold revoked_clock, default_instance.
    apply reach_call, reach_call, reach_start. }
  split.
  { eexists. split; [apply effective_total_run | reflexivity]. }
  repeat split; vm_compute; reflexivity.
Qed.

(** C2 as stated fails: with thresholds 30 and 30 + 1e-10 and the
    remaining time halfway between them, the code divides by 1e-9 and
    returns 5.75, while dividing by highTimeThreshold - lowTimeThreshold
    gives about 10.31. *)
Lemma time_reward_unfloored_counterexample :
  exists r,
    calculate_time_reward narrow_thresholds = (narrow_thresholds, Py.Ok r)
    /\ r == 23 # 4
    /\ ~ r == Ref.time_reward narrow_thresholds.
Proof.
  eexists. split; [vm_compute; reflexivity|].
  split; [reflexivity|].
  intros H. vm_compute in H. discriminate H.
Qed.

(** C4 as stated fails: with min_milestone_value = 2.4 the clamped value
    2.4 is rounded to 2, below the lower bound. *)
Lemma milestone_value_below_fractional_bound :
  exists s',
    update_milestone_value fpow_integral fractional_bound = (s', Py.Ok 2%Z)
    /\ milestone_value s' = 2
    /\ ~ min_milestone_value s' <= milestone_value s'.
Proof.
  eexists. split; [vm_compute; reflexivity|].
  split; [reflexivity|].
  intros H. vm_compute in H. apply H. reflexivity.
Qed.

(** C5 as stated fails: when normalTimeReward is 100 and lowTimeReward
    is 20, going from 25 to 15 minutes left lowers the reward from 100
    to 20. *)
Lemma time_reward_drops_with_inverted_rewards :
  exists r1 r2,
    calculate_time_reward (with_visible_time_remaining inverted_rewards 25)
    = (with_visible_time_remaining inverted_rewards 25, Py.Ok r1)
    /\ calculate_time_reward (with_visible_time_remaining inverted_rewards 15)
       = (with_visible_time_remaining inverted_rewards 15, Py.Ok r2)
    /\ 15 <= 25
    /\ ~ r1 <= r2.
Proof.
  eexists _, _. split; [vm_compute; reflexivity|].
  split; [vm_compute; reflexivity|].
  split; [unfold Qle; simpl; lia|].
  intros H. vm_compute in H. apply H. reflexivity.
Qed.

(** C9 as stated fails: set_progress(-5) on the default instance lowers
    the score from 0 to -5. *)
Lemma set_progress_lowers_score :
  exists s',
    set_progress (-5) default_instance = (s', Py.Ok tt)
    /\ ~ earned_points default_instance <= earned_points s'
    /\ ~ 0 <= earned_points s'.
Proof.
  eexists. split; [reflexivity|].
  split; intros H; vm_compute in H; apply H; reflexivity.
Qed.

(** * Further properties of the code *)

(** ** Rounding *)

Lemma round_monotone (x y : Q) : x <= y -> (Py.round x <= Py.round y)%Z.
Proof.
  intros Hxy.
  pose proof (Qfloor_resp_le _ _ Hxy) as Hf.
  pose proof (Qfloor_le y) as Hy0.
  pose proof (Qlt_floor x) as Hx1.
  destruct (round_floor_or_succ x) as [Ex | [Ex Hx]];
    destruct (round_floor_or_succ y) as [Ey | [Ey Hy]];
    rewrite Ex, Ey; try lia.
  (* x rounds up, y rounds down *)
  destruct (Z.eq_dec (Qfloor x) (Qfloor y)) as [E | NE]; [|lia].
  exfalso. unfold Py.round in Ex, Ey. rewrite <- E in Ey.
  destruct (Qcompare (x - inject_Z (Qfloor x)) (1 # 2)) eqn:Cx;
    destruct (Qcompare (y - inject_Z (Qfloor x)) (1 # 2)) eqn:Cy;
    try lia;
    first [apply Qeq_alt in Cx | apply Qlt_alt in Cx | apply Qgt_alt in Cx];
    first [apply Qeq_alt in Cy | apply Qlt_alt in Cy | apply Qgt_alt in Cy];
    try lra;
    destruct (Z.even (Qfloor x)); cbv iota in Ex, Ey; lia.
Qed.

Lemma ten_power_pos (n : Z) : 0 < 10 ^ n.
Proof. apply Qpower_0_lt. reflexivity. Qed.

Lemma round_to_monotone (x y : Q) (n : Z) :
  x <= y -> Py.round_to x n <= Py.round_to y n.
Proof.
  intros Hxy. unfold Py.round_to.
  pose proof (ten_power_pos n) as Hp.
  apply div_le_compat; [exact Hp|].
  rewrite <- Zle_Qle. apply round_monotone.
  apply Qmult_le_compat_r; lra.
Qed.

Lemma round_to_zero (n : Z) : Py.round_to 0 n == 0.
Proof.
  unfold Py.round_to.
  assert (E : 0 * 10 ^ n == 0) by ring.
  rewrite (round_comp _ _ E). reflexivity.
Qed.

#[global] Instance round_to_comp : Proper (Qeq ==> eq ==> Qeq) Py.round_to.
Proof.
  intros x y Hxy n m <-. unfold Py.round_to.
  assert (E : x * 10 ^ n == y * 10 ^ n) by now rewrite Hxy.
  now rewrite (round_comp _ _ E).
Qed.

(** ** The time reward *)

Lemma lt_true (a b : Q) : a < b -> Py.lt a b = true.
Proof.
  intros H. unfold Py.lt. destruct (Qlt_le_dec a b); [reflexivity | lra].
Qed.

Lemma max_eps_nonzero (x : Q) : ~ Py.max Py.eps x == 0.
Proof. pose proof (max_eps_pos x). lra. Qed.

(** With fewer than 20 minutes left the reward is low_time_reward itself,
    whatever the thresholds, the cap and the normal reward are, and no
    attribute changes. *)
Theorem time_reward_override (s : Scaler) :
  visible_time_remaining s < 20 ->
  calculate_time_reward s = (s, Py.Ok (low_time_reward s)).
Proof.
  intros H. unfold calculate_time_reward.
  unfold bind at 1. unfold read at 1.
  unfold bind at 1. rewrite effective_total_run.
  unfold bind at 1. rewrite div_ok.
  2:{ pose proof (max_eps_pos
        (Py.max3 (start_visible_total_time s + awarded_time_ledger s)
                 (visible_total_time s) (visible_time_remaining s))).
      lra. }
  cbn [bind read ret]. rewrite lt_true; [reflexivity|].
  unfold Py.max. destruct (Qlt_le_dec 0 (visible_time_remaining s)); lra.
Qed.

Lemma time_reward_floored_range (s : Scaler) :
  normal_time_reward s <= low_time_reward s ->
  normal_time_reward s <= Ref.time_reward_floored s
  /\ Ref.time_reward_floored s <= low_time_reward s.
Proof.
  intros Hb. unfold Ref.time_reward_floored, Ref.time_reward_with.
  cbv zeta. destruct (Ref.less _ 20); [lra|].
  match goal with |- context [Ref.clamp (?a / ?b) 0 1] =>
    destruct (clamp_unit (a / b)) as [T0 T1];
    set (t := Ref.clamp (a / b) 0 1) in *
  end.
  destruct (curve_antitone (normal_time_reward s) (low_time_reward s) t t)
    as [_ Hc]; [lra..|].
  unfold Ref.clamp at 1 2. split; [apply Q.le_max_l|].
  apply Q.max_lub; [exact Hb|].
  eapply Qle_trans; [apply Q.le_min_l | exact Hc].
Qed.

(** Whenever normal_time_reward <= low_time_reward, the reward always lies
    between the two. *)
Theorem time_reward_range (s : Scaler) :
  normal_time_reward s <= low_time_reward s ->
  exists r,
    calculate_time_reward s = (s, Py.Ok r)
    /\ normal_time_reward s <= r /\ r <= low_time_reward s.
Proof.
  intros Hb. destruct (calculate_time_reward_run s) as (r & E & Hr).
  exists r. split; [exact E|]. rewrite Hr.
  now apply time_reward_floored_range.
Qed.

(** With at least 20 minutes and at least high_time_threshold minutes
    left, the reward does not exceed high_time_cap (provided the cap is
    not below the normal reward, which the clamp lets win). *)
Theorem time_reward_capped_with_plenty_of_time (s : Scaler) :
  20 <= visible_time_remaining s ->
  high_time_threshold s <= visible_time_remaining s ->
  normal_time_reward s <= high_time_cap s ->
  exists r,
    calculate_time_reward s = (s, Py.Ok r)
    /\ normal_time_reward s <= r /\ r <= high_time_cap s.
Proof.
  intros H20 Hh Hc. destruct (calculate_time_reward_run s) as (r & E & Hr).
  exists r. split; [exact E|]. rewrite Hr.
  unfold Ref.time_reward_floored, Ref.time_reward_with, Ref.cap, Ref.less.
  cbv zeta.
  assert (Ev : Qmax 0 (visible_time_remaining s) == visible_time_remaining s)
    by (apply Q.max_r; lra).
  assert (Qle_bool 20 (Qmax 0 (visible_time_remaining s)) = true) as ->
    by (apply Qle_bool_iff; lra).
  assert (Qle_bool (high_time_threshold s)
            (Qmax 0 (visible_time_remaining s)) = true) as ->
    by (apply Qle_bool_iff; lra).
  cbn [negb]. unfold Ref.clamp at 1 3. split; [apply Q.le_max_l|].
  apply Q.max_lub; [exact Hc | apply Q.le_min_r].
Qed.

Lemma calculate_time_reward_reads (s s' : Scaler) :
  same_reward_inputs s s' ->
  result_of calculate_time_reward s' = result_of calculate_time_reward s.
Proof.
  unfold same_reward_inputs. destruct s, s'. cbn.
  intros (-> & -> & -> & -> & -> & -> & -> & -> & ->).
  unfold result_of, calculate_time_reward, _effective_total, bind, read, ret.
  cbv beta iota.
  cbn [visible_time_remaining visible_total_time start_visible_total_time
       awarded_time_ledger normal_time_reward low_time_reward
       high_time_threshold low_time_threshold high_time_cap].
  rewrite !div_ok by apply max_eps_nonzero. cbv beta iota.
  destruct (Py.lt _ 20); [reflexivity|].
  destruct (Py.ge _ _); [reflexivity|].
  destruct (Py.le _ _); [reflexivity|].
  rewrite !div_ok by apply max_eps_nonzero. reflexivity.
Qed.

(** Two instances that agree on the clock readings, the ledger and the
    five reward constants get the same reward, whatever their scores,
    milestone values and pacing targets are. *)
Theorem time_reward_inputs (s s' : Scaler) :
  same_reward_inputs s s' ->
  result_of calculate_time_reward s' = result_of calculate_time_reward s.
Proof. apply calculate_time_reward_reads. Qed.

(** The bonus complete_milestone returns is the reward as it was before
    the call: adding the milestone value to the score does not move it. *)
Theorem complete_milestone_bonus_is_prior_reward (s : Scaler) :
  result_of complete_milestone s = result_of calculate_time_reward s.
Proof.
  unfold result_of.
  destruct (complete_milestone_run s) as (r & -> & E & _). cbn [snd].
  pose proof (calculate_time_reward_reads s
    (with_earned_points s (earned_points s + milestone_value s))) as H.
  unfold result_of in H. rewrite E in H. cbn [snd] in H.
  apply H. unfold same_reward_inputs. cbn. tauto.
Qed.

(** ** The clock *)

Ltac split_max :=
  unfold Py.max3, Py.max, Py.min in *;
  repeat match goal with
         | |- context [Qlt_le_dec ?a ?b] =>
             lazymatch a with
             | context [Qlt_le_dec _ _] => fail
             | _ => lazymatch b with
                    | context [Qlt_le_dec _ _] => fail
                    | _ => destruct (Qlt_le_dec a b)
                    end
             end
         end.

(** add_visible_time never raises; afterwards the remaining time is
    non-negative and not above the total, the total has not decreased,
    and the ledger has moved by the requested delta (even when the
    remaining time was clamped at zero) exactly when recording was
    asked for. *)
Theorem add_visible_time_effect (s : Scaler) (dm : Q) (flag : bool) :
  exists s',
    add_visible_time dm flag s = (s', Py.Ok tt)
    /\ 0 <= visible_time_remaining s'
    /\ visible_time_remaining s' <= visible_total_time s'
    /\ visible_total_time s <= visible_total_time s'
    /\ awarded_time_ledger s'
       = (if flag then awarded_time_ledger s + dm else awarded_time_ledger s)
    /\ start_visible_total_time s' = start_visible_total_time s
    /\ earned_points s' = earned_points s
    /\ milestone_value s' = milestone_value s.
Proof.
  exists (state_after (add_visible_time dm flag) s).
  split; [destruct flag; reflexivity|].
  destruct flag; cbn; repeat split; try reflexivity; split_max; lra.
Qed.

(** set_visible_time never raises and stores both readings clamped at
    zero; the visible_elapsed it records is computed from the reading as
    given, so it exceeds the elapsed time of the stored clock by the
    amount a negative reading was clamped. *)
Theorem set_visible_time_elapsed (s : Scaler) (remaining total : Q) :
  exists s' eff e,
    set_visible_time remaining total s = (s', Py.Ok tt)
    /\ visible_time_remaining s' = Py.max 0 remaining
    /\ visible_total_time s' = Py.max 0 total
    /\ _effective_total s' = (s', Py.Ok eff)
    /\ visible_elapsed s' = Some e
    /\ e == Py.max 0 (eff - visible_time_remaining s') + Py.max 0 (- remaining).
Proof.
  eexists _, _, _. split; [reflexivity|].
  split; [reflexivity|]. split; [reflexivity|].
  split; [apply effective_total_run|]. split; [reflexivity|].
  cbn. split_max; lra.
Qed.

(** ** Snapshots *)

Lemma scaler_ext (s s' : Scaler) :
  persisted_fields_agree s s' ->
  visible_elapsed s' = visible_elapsed s ->
  s' = s.
Proof.
  unfold persisted_fields_agree. destruct s, s'. cbn.
  intros (-> & -> & -> & -> & -> & -> & -> & -> & -> & -> & -> & -> & ->
          & -> & -> & -> & ->) ->.
  reflexivity.
Qed.

(** Reduce attribute reads of updated instances, and nothing else. *)
Ltac simpl_fields :=
  cbn [target_points initial_milestone_value visible_total_time
       target_win_time adjustment_rate min_milestone_value
       max_milestone_value earned_points milestone_value
       visible_time_remaining normal_time_reward low_time_reward
       high_time_threshold low_time_threshold high_time_cap
       start_visible_total_time awarded_time_ledger visible_elapsed
       with_target_points with_initial_milestone_value
       with_visible_total_time with_target_win_time with_adjustment_rate
       with_min_milestone_value with_max_milestone_value with_earned_points
       with_milestone_value with_visible_time_remaining
       with_normal_time_reward with_low_time_reward
       with_high_time_threshold with_low_time_threshold with_high_time_cap
       with_start_visible_total_time with_awarded_time_ledger
       with_visible_elapsed].

Lemma bind_restore {B} (state : gmap string Q) (key : string)
    (attr : Scaler -> Q) (upd : Scaler -> Q -> Scaler) (k : unit -> M B)
    (t : Scaler) :
  bind (restore state key attr upd) k t
  = k tt (upd t (default (attr t) (state !! key))).
Proof. reflexivity. Qed.

Lemma load_state_run (s : Scaler) (filepath : string) (fs : filesystem)
    (state : gmap string Q) :
  files fs !! filepath = Some (Snapshot state) ->
  exists s',
    load_state filepath fs s = (s', Py.Ok true) /\ merged_from state s s'.
Proof.
  intros Hf. unfold load_state. rewrite Hf.
  repeat (rewrite bind_restore; cbv beta; simpl_fields).
  eexists. split; [reflexivity|].
  unfold merged_from. simpl_fields. repeat split; reflexivity.
Qed.

(** Loading a well-formed snapshot never raises and returns True: every
    attribute whose key the snapshot holds takes the stored value, every
    attribute whose key is missing keeps its value, and visible_elapsed
    is never touched. *)
Theorem load_state_merges (s : Scaler) (filepath : string) (fs : filesystem)
    (state : gmap string Q) :
  files fs !! filepath = Some (Snapshot state) ->
  exists s',
    load_state filepath fs s = (s', Py.Ok true) /\ merged_from state s s'.
Proof. apply load_state_run. Qed.

Lemma save_state_ok (s : Scaler) (filepath : string) (fs : filesystem) :
  filepath ∉ denied fs ->
  save_state filepath fs s
  = (s, Py.Ok (mkFs (<[filepath := Snapshot (snapshot_of s)]> (files fs))
                    (denied fs))).
Proof.
  intros Hw. unfold save_state. cbn [bind read].
  destruct (decide (filepath ∈ denied fs)); [contradiction | reflexivity].
Qed.

(** Saving an instance and loading the file back into the same instance
    changes nothing at all. *)
Theorem save_then_reload_is_identity (s : Scaler) (filepath : string)
    (fs : filesystem) :
  filepath ∉ denied fs ->
  exists fs',
    save_state filepath fs s = (s, Py.Ok fs')
    /\ load_state filepath fs' s = (s, Py.Ok true).
Proof.
  intros Hw. rewrite (save_state_ok s filepath fs Hw).
  set (fs' := mkFs _ _). exists fs'. split; [reflexivity|].
  destruct (load_state_run s filepath fs' (snapshot_of s)) as (s' & E & Hm).
  { apply lookup_insert_eq. }
  rewrite E. f_equal. apply scaler_ext.
  - unfold merged_from in Hm. unfold persisted_fields_agree.
    pose proof (snapshot_of_lookup s) as L.
    repeat match type of L with
           | _ /\ _ => let H := fresh "L" in destruct L as [H L]
           end.
    repeat match goal with
           | H : snapshot_of s !! _ = Some _ |- _ => rewrite H in Hm; clear H
           end.
    cbn [default from_option id] in Hm. tauto.
  - unfold merged_from in Hm. tauto.
Qed.

(** What a path holds after two saves to it is the later instance:
    loading it yields the attributes saved last. *)
Theorem save_state_last_write_wins (s1 s2 t : Scaler) (p : string)
    (fs : filesystem) :
  p ∉ denied fs ->
  exists fs1 fs2 t',
    save_state p fs s1 = (s1, Py.Ok fs1)
    /\ save_state p fs1 s2 = (s2, Py.Ok fs2)
    /\ load_state p fs2 t = (t', Py.Ok true)
    /\ persisted_fields_agree s2 t'.
Proof.
  intros Hp.
  set (fs1 := mkFs (<[p := Snapshot (snapshot_of s1)]> (files fs)) (denied fs)).
  set (fs2 := mkFs (<[p := Snapshot (snapshot_of s2)]> (files fs1))
                   (denied fs1)).
  destruct (load_state_saved s2 t p fs2) as (t' & E & Ht).
  { apply lookup_insert_eq. }
  exists fs1, fs2, t'.
  split; [now apply save_state_ok|].
  split; [now apply save_state_ok|].
  split; assumption.
Qed.

Lemma snapshot_of_dom (s : Scaler) :
  dom (snapshot_of s) = list_to_set persisted_keys.
Proof.
  unfold snapshot_of, persisted_keys. cbn [list_to_map foldr uncurry fst snd].
  rewrite !dom_insert_L, dom_empty_L. reflexivity.
Qed.

(** A load followed by a save rewrites the file with exactly the 17
    known keys: the values the file held under known keys are kept,
    and keys the code does not know are dropped. *)
Theorem load_then_save_normalises (s : Scaler) (filepath : string)
    (fs : filesystem) (state : gmap string Q) :
  files fs !! filepath = Some (Snapshot state) ->
  filepath ∉ denied fs ->
  exists s' fs' state',
    load_state filepath fs s = (s', Py.Ok true)
    /\ save_state filepath fs s' = (s', Py.Ok fs')
    /\ files fs' !! filepath = Some (Snapshot state')
    /\ dom state' = list_to_set persisted_keys
    /\ forall key v,
         key ∈ persisted_keys -> state !! key = Some v ->
         state' !! key = Some v.
Proof.
  intros Hf Hw.
  destruct (load_state_run s filepath fs state Hf) as (s' & E & Hm).
  eexists s', _, (snapshot_of s'). split; [exact E|].
  split; [now apply save_state_ok|]. split; [apply lookup_insert_eq|].
  split; [apply snapshot_of_dom|].
  intros key v Hk Hv. unfold merged_from in Hm.
  pose proof (snapshot_of_lookup s') as L.
  repeat match type of L with
         | _ /\ _ => let H := fresh "L" in destruct L as [H L]
         end.
  unfold persisted_keys in Hk.
  repeat (apply elem_of_cons in Hk; destruct Hk as [-> | Hk];
          [rewrite Hv in Hm; cbn [default from_option id] in Hm;
           match goal with
           | H : snapshot_of s' !! ?k = Some _ |- snapshot_of s' !! ?k = _ =>
               rewrite H
           end;
           f_equal; tauto |]).
  apply elem_of_nil in Hk. contradiction.
Qed.

(** ** The adjuster *)

Lemma round_inject_Z (k : Z) : Py.round (inject_Z k) = k.
Proof.
  unfold Py.round. rewrite Qfloor_Z.
  assert (E : Qcompare (inject_Z k - inject_Z k) (1 # 2) = Lt).
  { apply Qlt_alt.
    assert (H : inject_Z k - inject_Z k == 0) by ring.
    rewrite H. reflexivity. }
  now rewrite E.
Qed.

Lemma clamp_code_monotone (lo a b hi : Q) :
  a <= b -> Py.max lo (Py.min a hi) <= Py.max lo (Py.min b hi).
Proof. intros H. split_max; lra. Qed.

Lemma clamp_code_inside (lo a hi : Q) :
  lo <= a -> a <= hi -> Py.max lo (Py.min a hi) == a.
Proof. intros H1 H2. split_max; lra. Qed.

Lemma lt_false (a b : Q) : b <= a -> Py.lt a b = false.
Proof.
  intros H. unfold Py.lt. destruct (Qlt_le_dec a b); [lra | reflexivity].
Qed.

Lemma gt_of_lt (a b : Q) : b < a -> Py.gt a b = true.
Proof. intros H. apply (lt_true b a H). Qed.

Lemma gt_of_le (a b : Q) : a <= b -> Py.gt a b = false.
Proof. intros H. apply (lt_false b a H). Qed.


Section AdjusterDirection.

Variable fpow : Q -> Q -> Q.


Lemma update_milestone_value_on_pace_run (s : Scaler) (k : Z) :
  ~ target_win_time s == 0 ->
  ~ Ref.effective_total s == 0 ->
  Ref.pace_ratio s == 1 ->
  milestone_value s == inject_Z k ->
  min_milestone_value s <= milestone_value s ->
  milestone_value s <= max_milestone_value s ->
  update_milestone_value fpow s
  = (with_milestone_value s (inject_Z k), Py.Ok k).
Proof.
  intros Htwt Heff Hpace Hk Hlo Hhi.
  destruct (update_milestone_value_steps fpow s Htwt Heff)
    as (p & t & Hp & _ & E).
  cbv zeta in E. rewrite E. clear E.
  rewrite gt_of_le, lt_false by lra.
  assert (Er : Py.round (Py.max (min_milestone_value s)
                 (Py.min (milestone_value s) (max_milestone_value s))) = k).
  { rewrite <- (round_inject_Z k). apply round_comp.
    rewrite clamp_code_inside by assumption. exact Hk. }
  now rewrite Er.
Qed.

(** Whenever the call returns (target_win_time and the effective total
    are non-zero) and the pace ratio is exactly 1, an integer milestone
    value within the bounds is stored and returned unchanged. *)
Theorem update_milestone_value_on_pace (s : Scaler) (k : Z) :
  ~ target_win_time s == 0 ->
  ~ Ref.effective_total s == 0 ->
  Ref.pace_ratio s == 1 ->
  milestone_value s == inject_Z k ->
  min_milestone_value s <= milestone_value s ->
  milestone_value s <= max_milestone_value s ->
  update_milestone_value fpow s
  = (with_milestone_value s (inject_Z k), Py.Ok k).
Proof. apply update_milestone_value_on_pace_run. Qed.


(** Behind pace, with a non-negative adjustment rate, the adjuster never
    lowers a non-negative integer milestone value that is within the
    bounds. *)
Theorem update_milestone_value_behind_pace (s : Scaler) (k : Z) :
  ~ target_win_time s == 0 ->
  ~ Ref.effective_total s == 0 ->
  Ref.pace_ratio s < 1 ->
  0 <= adjustment_rate s ->
  milestone_value s == inject_Z k ->
  0 <= milestone_value s ->
  min_milestone_value s <= milestone_value s ->
  milestone_value s <= max_milestone_value s ->
  exists z,
    update_milestone_value fpow s
    = (with_milestone_value s (inject_Z z), Py.Ok z)
    /\ (k <= z)%Z.
Proof.
  intros Htwt Heff Hpace Hrate Hk Hmv Hlo Hhi.
  destruct (update_milestone_value_steps fpow s Htwt Heff)
    as (p & t & Hp & _ & E).
  cbv zeta in E. rewrite E. clear E.
  eexists. split; [reflexivity|].
  rewrite gt_of_le, lt_true by lra.
  rewrite <- (round_inject_Z k). apply round_monotone.
  rewrite <- Hk.
  rewrite <- (clamp_code_inside (min_milestone_value s) (milestone_value s)
                (max_milestone_value s)) at 1 by assumption.
  apply clamp_code_monotone.
  pose proof (square_fraction_pos t) as Hsq.
  assert (Hinc : 0 <= adjustment_rate s / (1 + t ^ 2))
    by (apply Qle_shift_div_l; [exact Hsq | lra]).
  set (inc := adjustment_rate s / (1 + t ^ 2)) in *. clearbody inc.
  assert (0 <= inc * (1 - p)) by nra.
  nra.
Qed.

(** What is used of the float power: a base in (0, 1] raised to a
    non-negative exponent does not exceed 1. *)
Hypothesis fpow_le_1 :
  forall b e : Q, 0 < b -> b <= 1 -> 0 <= e -> fpow b e <= 1.

(** Ahead of pace, with a non-negative adjustment rate, the adjuster
    never raises a non-negative integer milestone value that is within
    the bounds. *)
Theorem update_milestone_value_ahead_of_pace (s : Scaler) (k : Z) :
  ~ target_win_time s == 0 ->
  ~ Ref.effective_total s == 0 ->
  1 < Ref.pace_ratio s ->
  0 <= adjustment_rate s ->
  milestone_value s == inject_Z k ->
  0 <= milestone_value s ->
  min_milestone_value s <= milestone_value s ->
  milestone_value s <= max_milestone_value s ->
  exists z,
    update_milestone_value fpow s
    = (with_milestone_value s (inject_Z z), Py.Ok z)
    /\ (z <= k)%Z.
Proof.
  intros Htwt Heff Hpace Hrate Hk Hmv Hlo Hhi.
  destruct (update_milestone_value_steps fpow s Htwt Heff)
    as (p & t & Hp & _ & E).
  cbv zeta in E. rewrite E. clear E.
  eexists. split; [reflexivity|].
  rewrite gt_of_lt by lra.
  rewrite <- (round_inject_Z k). apply round_monotone.
  rewrite <- Hk.
  rewrite <- (clamp_code_inside (min_milestone_value s) (milestone_value s)
                (max_milestone_value s)) at 2 by assumption.
  apply clamp_code_monotone.
  pose proof (square_fraction_pos t) as Hsq.
  assert (Hinv : 0 < 1 / p /\ 1 / p <= 1).
  { split.
    - apply Qlt_shift_div_l; lra.
    - apply Qle_shift_div_r; lra. }
  assert (He : 0 <= adjustment_rate s * (1 + t ^ 2)) by nra.
  pose proof (fpow_le_1 (1 / p) (adjustment_rate s * (1 + t ^ 2))
                (proj1 Hinv) (proj2 Hinv) He) as Hf.
  set (f := fpow (1 / p) (adjustment_rate s * (1 + t ^ 2))) in *.
  clearbody f. nra.
Qed.

End AdjusterDirection.

(** ** Telemetry *)

Lemma game_state_lookup (a b c d e f g h i j : Q) :
  let m : gmap string Q :=
    list_to_map
      [ ("Pts Won", a); ("Pts Rem", b); ("Reward", c); ("Flag Val", d);
        ("Clock", e); ("TT", f); ("ET", g); ("Time Elapsed", h);
        ("TWT", i); ("PR", j) ] in
  m !! "Pts Won" = Some a /\ m !! "Pts Rem" = Some b
  /\ m !! "Reward" = Some c /\ m !! "Flag Val" = Some d
  /\ m !! "Clock" = Some e /\ m !! "TT" = Some f
  /\ m !! "ET" = Some g /\ m !! "Time Elapsed" = Some h
  /\ m !! "TWT" = Some i /\ m !! "PR" = Some j
  /\ dom m = list_to_set game_state_keys.
Proof.
  cbv zeta. repeat split; vm_compute; reflexivity.
Qed.

Lemma get_game_state_steps (s : Scaler) :
  ~ target_win_time s == 0 ->
  exists r eff pr,
    calculate_time_reward s = (s, Py.Ok r)
    /\ _effective_total s = (s, Py.Ok eff)
    /\ pr == Ref.pace_ratio s
    /\ get_game_state s
       = (s, Py.Ok
               (list_to_map
                  [ ("Pts Won", Py.round_to (earned_points s) 2);
                    ("Pts Rem",
                     Py.max 0
                       (Py.round_to (target_points s - earned_points s) 2));
                    ("Reward", Py.round_to r 2);
                    ("Flag Val", inject_Z (Py.int (milestone_value s)));
                    ("Clock", Py.round_to (visible_time_remaining s) 2);
                    ("TT", Py.round_to (visible_total_time s) 2);
                    ("ET", Py.round_to eff 2);
                    ("Time Elapsed",
                     Py.round_to
                       (Py.max 0 (eff - visible_time_remaining s)) 2);
                    ("TWT", Py.round_to (target_win_time s) 2);
                    ("PR", Py.round_to pr 3) ])).
Proof.
  intros Htwt.
  destruct (calculate_time_reward_run s) as (r & Er & _).
  pose proof (effective_total_ref s) as He.
  set (eff := Py.max3 _ _ _) in He.
  set (e := Py.min (Py.max 0 (eff - visible_time_remaining s))
                   (target_win_time s)
            / target_win_time s * target_points s).
  assert (Hexp : e == Ref.expected_score s).
  { unfold e, Ref.expected_score, Ref.visible_elapsed.
    now rewrite min_Qmin, max_Qmax, He. }
  exists r, eff, (if Py.gt e 0 then earned_points s / e else 1).
  split; [exact Er|]. split; [apply effective_total_run|]. split.
  - unfold Ref.pace_ratio, Ref.less. rewrite gt_Qle_bool.
    assert (Qle_bool (Ref.expected_score s) 0 = Qle_bool e 0) as ->
      by now rewrite Hexp.
    destruct (Qle_bool e 0); cbn [negb]; [reflexivity | now rewrite Hexp].
  - unfold get_game_state.
    cbn [bind read ret _effective_total]. fold eff.
    rewrite (bind_ok _ _ _ _ _ Er).
    cbn [bind read ret].
    rewrite (bind_ok _ _ _ _ _ (div_ok _ _ _ Htwt)).
    cbn [bind read ret]. fold e.
    assert (Hp : (if Py.gt e 0
                  then earned <- read earned_points ;; div earned e
                  else ret 1) s
                 = (s, Py.Ok (if Py.gt e 0 then earned_points s / e else 1))).
    { destruct (Py.gt e 0) eqn:Eg; [|reflexivity].
      apply gt_true in Eg. cbn [bind read]. apply div_ok. lra. }
    rewrite (bind_ok _ _ _ _ _ Hp). reflexivity.
Qed.

(** get_game_state changes no attribute. It raises ZeroDivisionError
    exactly when target_win_time is zero; a zero effective total, on
    which update_milestone_value raises, does not stop it. *)
Theorem get_game_state_raises_or_returns (s : Scaler) :
  (target_win_time s == 0 ->
   get_game_state s = (s, Py.Raise Py.ZeroDivisionError))
  /\ (~ target_win_time s == 0 ->
      exists d, get_game_state s = (s, Py.Ok d)
                /\ dom d = list_to_set game_state_keys).
Proof.
  split.
  - intros Htwt. destruct (calculate_time_reward_run s) as (r & Er & _).
    unfold get_game_state. cbn [bind read ret _effective_total].
    rewrite (bind_ok _ _ _ _ _ Er). cbn [bind read ret].
    unfold bind at 1. now rewrite (div_zero _ _ _ Htwt).
  - intros Htwt.
    destruct (get_game_state_steps s Htwt) as (r & eff & pr & _ & _ & _ & E).
    eexists. split; [exact E|]. apply game_state_lookup.
Qed.

(** The reward and the pace ratio that get_game_state reports are the
    value calculate_time_reward returns and the pace ratio
    update_milestone_value works with, rounded to 2 and 3 decimals. *)
Theorem get_game_state_reports_the_calculators (s : Scaler) :
  ~ target_win_time s == 0 ->
  exists d r pr,
    get_game_state s = (s, Py.Ok d)
    /\ calculate_time_reward s = (s, Py.Ok r)
    /\ d !! "Reward" = Some (Py.round_to r 2)
    /\ d !! "PR" = Some pr
    /\ pr == Py.round_to (Ref.pace_ratio s) 3.
Proof.
  intros Htwt.
  destruct (get_game_state_steps s Htwt) as (r & eff & pr & Er & _ & Hp & E).
  eexists _, r, _. split; [exact E|]. split; [exact Er|].
  split; [apply game_state_lookup|]. split; [apply game_state_lookup|].
  now rewrite Hp.
Qed.

(** In the reported telemetry the clock reading never exceeds the
    effective total, and the elapsed time and the points remaining are
    never negative. *)
Theorem get_game_state_is_consistent (s : Scaler) :
  ~ target_win_time s == 0 ->
  exists d clock et elapsed rem,
    get_game_state s = (s, Py.Ok d)
    /\ d !! "Clock" = Some clock
    /\ d !! "ET" = Some et
    /\ d !! "Time Elapsed" = Some elapsed
    /\ d !! "Pts Rem" = Some rem
    /\ clock <= et /\ 0 <= elapsed /\ 0 <= rem.
Proof.
  intros Htwt.
  destruct (get_game_state_steps s Htwt) as (r & eff & pr & _ & Ee & _ & E).
  rewrite effective_total_run in Ee. injection Ee as Ee.
  eexists _, _, _, _, _. split; [exact E|].
  split; [apply game_state_lookup|]. split; [apply game_state_lookup|].
  split; [apply game_state_lookup|]. split; [apply game_state_lookup|].
  split; [|split].
  - apply round_to_monotone. subst eff. unfold Py.max3. apply max_ge_r.
  - apply Qle_trans with (Py.round_to 0 2).
    + rewrite round_to_zero. lra.
    + apply round_to_monotone. apply max_ge_l.
  - apply max_ge_l.
Qed.

(** ** The further properties at concrete inputs *)

Ltac by_computation :=
  vm_compute;
  first [ reflexivity
        | discriminate
        | let H := fresh in intros H; discriminate H ].

Lemma fpow_integral_le_1 (b e : Q) :
  0 < b -> b <= 1 -> 0 <= e -> fpow_integral b e <= 1.
Proof.
  intros Hb0 Hb1 He. unfold fpow_integral.
  assert (Hn : (0 <= Qfloor e)%Z).
  { change 0%Z with (Qfloor 0). now apply Qfloor_resp_le. }
  assert (Hinv : 1 <= / b).
  { apply Qle_shift_inv_l; lra. }
  pose proof (Qpower_1_le (/ b) (Qfloor e) Hinv Hn) as H1.
  rewrite Qinv_power in H1.
  pose proof (Qpower_0_lt b (Qfloor e) Hb0) as Hp.
  set (x := b ^ Qfloor e) in *. clearbody x.
  assert (E : x * / x == 1) by (field; lra).
  nra.
Qed.

Lemma time_reward_override_witness :
  calculate_time_reward (with_visible_time_remaining default_instance 15)
  = (with_visible_time_remaining default_instance 15,
     Py.Ok (low_time_reward (with_visible_time_remaining default_instance 15))).
Proof.
  apply (time_reward_override
           (with_visible_time_remaining default_instance 15)).
  by_computation.
Defined.

Lemma time_reward_range_witness :
  exists r,
    calculate_time_reward ahead_of_pace = (ahead_of_pace, Py.Ok r)
    /\ normal_time_reward ahead_of_pace <= r
    /\ r <= low_time_reward ahead_of_pace.
Proof.
  apply (time_reward_range ahead_of_pace). by_computation.
Defined.

Lemma time_reward_capped_with_plenty_of_time_witness :
  exists r,
    calculate_time_reward default_instance = (default_instance, Py.Ok r)
    /\ normal_time_reward default_instance <= r
    /\ r <= high_time_cap default_instance.
Proof.
  apply (time_reward_capped_with_plenty_of_time default_instance);
    by_computation.
Defined.

Lemma time_reward_inputs_witness :
  result_of calculate_time_reward
    (with_earned_points (with_milestone_value default_instance 3) 42)
  = result_of calculate_time_reward default_instance.
Proof.
  apply (time_reward_inputs default_instance
           (with_earned_points (with_milestone_value default_instance 3) 42)).
  unfold same_reward_inputs. repeat split; reflexivity.
Defined.

Lemma load_state_merges_witness :
  exists s',
    load_state "game_state.json" inverted_rewards_save default_instance
    = (s', Py.Ok true)
    /\ merged_from {[ "normal_time_reward" := 100 ]} default_instance s'.
Proof.
  apply (load_state_merges default_instance "game_state.json"
           inverted_rewards_save).
  reflexivity.
Defined.

Lemma save_then_reload_is_identity_witness :
  exists fs',
    save_state "game_state.json" empty_fs ahead_of_pace
    = (ahead_of_pace, Py.Ok fs')
    /\ load_state "game_state.json" fs' ahead_of_pace
       = (ahead_of_pace, Py.Ok true).
Proof.
  apply (save_then_reload_is_identity ahead_of_pace "game_state.json"
           empty_fs).
  apply not_elem_of_empty.
Defined.

Lemma save_state_last_write_wins_witness :
  exists fs1 fs2 t',
    save_state "game_state.json" empty_fs default_instance
    = (default_instance, Py.Ok fs1)
    /\ save_state "game_state.json" fs1 ahead_of_pace
       = (ahead_of_pace, Py.Ok fs2)
    /\ load_state "game_state.json" fs2 fractional_bound = (t', Py.Ok true)
    /\ persisted_fields_agree ahead_of_pace t'.
Proof.
  apply (save_state_last_write_wins default_instance ahead_of_pace
           fractional_bound "game_state.json" empty_fs).
  apply not_elem_of_empty.
Defined.

Lemma load_then_save_normalises_witness :
  exists s' fs' state',
    load_state "game_state.json" inverted_rewards_save default_instance
    = (s', Py.Ok true)
    /\ save_state "game_state.json" inverted_rewards_save s'
       = (s', Py.Ok fs')
    /\ files fs' !! "game_state.json" = Some (Snapshot state')
    /\ dom state' = list_to_set persisted_keys
    /\ forall key v,
         key ∈ persisted_keys ->
         ({[ "normal_time_reward" := 100 ]} : gmap string Q) !! key = Some v ->
         state' !! key = Some v.
Proof.
  apply (load_then_save_normalises default_instance "game_state.json"
           inverted_rewards_save).
  - reflexivity.
  - apply not_elem_of_empty.
Defined.

Lemma update_milestone_value_on_pace_witness :
  update_milestone_value fpow_integral default_instance
  = (with_milestone_value default_instance (inject_Z 10), Py.Ok 10%Z).
Proof.
  apply (update_milestone_value_on_pace fpow_integral default_instance 10);
    by_computation.
Defined.


Lemma update_milestone_value_behind_pace_witness :
  exists z,
    update_milestone_value fpow_integral behind_pace
    = (with_milestone_value behind_pace (inject_Z z), Py.Ok z)
    /\ (10 <= z)%Z.
Proof.
  apply (update_milestone_value_behind_pace fpow_integral behind_pace 10);
    by_computation.
Defined.

Lemma update_milestone_value_ahead_of_pace_witness :
  exists z,
    update_milestone_value fpow_integral ahead_of_pace
    = (with_milestone_value ahead_of_pace (inject_Z z), Py.Ok z)
    /\ (z <= 10)%Z.
Proof.
  apply (update_milestone_value_ahead_of_pace fpow_integral
           fpow_integral_le_1 ahead_of_pace 10);
    by_computation.
Defined.

Lemma get_game_state_reports_the_calculators_witness :
  exists d r pr,
    get_game_state ahead_of_pace = (ahead_of_pace, Py.Ok d)
    /\ calculate_time_reward ahead_of_pace = (ahead_of_pace, Py.Ok r)
    /\ d !! "Reward" = Some (Py.round_to r 2)
    /\ d !! "PR" = Some pr
    /\ pr == Py.round_to (Ref.pace_ratio ahead_of_pace) 3.
Proof.
  apply (get_game_state_reports_the_calculators ahead_of_pace).
  by_computation.
Defined.

Lemma get_game_state_is_consistent_witness :
  exists d clock et elapsed rem,
    get_game_state revoked_clock = (revoked_clock, Py.Ok d)
    /\ d !! "Clock" = Some clock
    /\ d !! "ET" = Some et
    /\ d !! "Time Elapsed" = Some elapsed
    /\ d !! "Pts Rem" = Some rem
    /\ clock <= et /\ 0 <= elapsed /\ 0 <= rem.
Proof.
  apply (get_game_state_is_consistent revoked_clock). by_computation.
Defined.
